(** * ControlPlane Python SDK: models, schema registry, validation helpers, client

    A shallow embedding of the package [controlplane_sdk]
    (models.py, schemas.py, validation.py, client.py, __init__.py) and the
    properties its specification states about it.

    Layout: the Python object fragment and exceptions; the statements of
    models.py and the execution of a module body; the validator of the
    pydantic base class (an external library, modelled from the specification);
    validation.py, schemas.py and client.py; then the theorems. *)

From Stdlib Require Import ZArith String Ascii List Lia.
From Stdlib Require Import Decimal DecimalString DecimalPos DecimalZ.
From Stdlib Require Import Floats.SpecFloat.
From stdpp Require Import gmap strings list fin_maps.

Set Warnings "-register-all".
Local Open Scope Z_scope.

(* ===================================================================== *)
(** ** Python objects *)
(* ===================================================================== *)

(** A [datetime.datetime] object: the calendar fields and the offset of an
    aware value in seconds ([None] for a naive one). *)
Record datetime := {
  year : Z; month : Z; day : Z;
  hour : Z; minute : Z; second : Z; microsecond : Z;
  utcoffset : option Z
}.

(** The objects that occur as field values, defaults and request bodies.
    A Python [float] is an IEEE binary64 number ([spec_float]); a [dict] with
    string keys is a finite map; [VFieldInfo] is the object returned by
    pydantic's [Field(...)] ([None] when no default was given); [VObject]
    is a reference to a named class or function. *)
Inductive value :=
| VNone
| VBool (b : bool)
| VInt (n : Z)
| VFloat (f : spec_float)
| VStr (s : string)
| VList (l : list value)
| VDict (d : gmap string value)
| VDatetime (t : datetime)
| VFieldInfo (default : option value)
| VObject (qualname : string).

(** Truth value of a [str]: the empty string is false. *)
Definition truthy_str (s : string) : bool := negb (String.eqb s "").

(** Truth value of an object, as [if] and the [with] statement test it. *)
Definition truthy (v : value) : bool :=
  match v with
  | VNone => false
  | VBool b => b
  | VInt n => negb (n =? 0)
  | VFloat (S754_zero _) => false
  | VStr s => truthy_str s
  | VList l => match l with [] => false | _ => true end
  | VDict d => negb (bool_decide (d = ∅))
  | _ => true
  end.

(** The limit of the interpreter on the decimal digits of an [int] that is
    converted to text: [sys.int_info.default_max_str_digits] of CPython
    3.11. *)
Definition int_max_str_digits : Z := 4300.

(** The [int]s that [str(n)] and an f-string write: those of at most
    [int_max_str_digits] digits. For any other, the conversion raises
    [ValueError]. *)
Definition within_str_digits (n : Z) : Prop := Z.abs n < 10 ^ int_max_str_digits.

(** [str(n)] and the [{n}] of an f-string for an [int] within the limit
    [within_str_digits]: its decimal digits, after a minus sign when it is
    negative. *)
Definition str_of_int (n : Z) : string :=
  NilZero.string_of_int (Z.to_int n).

(** [float(n)] for an [int]: round to nearest, ties to even. *)
Definition float_of_int (n : Z) : spec_float :=
  binary_normalize 53 1024 n 0 false.

(** The integer a float equals, when it is finite with no fractional part. *)
Definition int_of_float (f : spec_float) : option Z :=
  match f with
  | S754_zero _ => Some 0
  | S754_finite s m e =>
      let mag :=
        if (0 <=? e) then Some (Z.pos m * 2 ^ e)
        else if (Z.pos m mod 2 ^ (- e) =? 0) then Some (Z.pos m / 2 ^ (- e))
        else None in
      (fun k => if s then - k else k) <$> mag
  | _ => None
  end.

(* ===================================================================== *)
(** ** Exceptions and results *)
(* ===================================================================== *)

(** One component of an error location: a key or a list index. *)
Inductive loc_item :=
| LKey (k : string)
| LIdx (i : nat).

(** One field-level failure of a [ValidationError]. *)
Record error_detail := {
  err_type : string;
  err_loc : list loc_item;
  err_msg : string;
  err_input : value
}.

Inductive exn :=
| NameError (name : string)
| AttributeError (obj attr : string)
| TypeError (msg : string)
| KeyError (msg : string)
| ValidationError (title : string) (errors : list error_detail)
| HTTPStatusError (status_code : Z)
| TransportError (msg : string)
| JSONDecodeError (msg : string).

(** The result of running Python code: a value, or a raised exception. *)
Inductive outcome (A : Type) :=
| Return (a : A)
| Raise (e : exn).
Arguments Return {A} a.
Arguments Raise {A} e.

#[global] Instance outcome_ret : MRet outcome := @Return.
#[global] Instance outcome_bind : MBind outcome := fun A B f m =>
  match m with
  | Return a => f a
  | Raise e => Raise e
  end.

Definition raises {A} (m : outcome A) : Prop := exists e, m = Raise e.
Definition returns {A} (m : outcome A) : Prop := exists a, m = Return a.

(** [try: body  except <handler>:] where [handler e] is [Some k] for the
    exceptions the clause catches; any other exception propagates. *)
Definition try_except {A} (body : outcome A) (handler : exn -> option (outcome A))
  : outcome A :=
  match body with
  | Return a => Return a
  | Raise e => match handler e with
               | Some k => k
               | None => Raise e
               end
  end.

(** [with mgr as x: body], over a state [St] that the body and the exit
    method change. The body runs on what [__enter__] returns; [__exit__]
    is then called, with the exception the body raised if it raised one;
    that exception is raised again unless [__exit__] returned a true
    value, in which case the statement ends normally with no result. *)
Definition with_statement {Mgr X St A : Type}
    (enter : Mgr -> X) (exit : Mgr -> option exn -> St -> value * St)
    (mgr : Mgr) (body : X -> St -> outcome A * St) (st : St)
    : outcome (option A) * St :=
  let '(r, st1) := body (enter mgr) st in
  match r with
  | Return a =>
      let '(_, st2) := exit mgr None st1 in (Return (Some a), st2)
  | Raise e =>
      let '(suppress, st2) := exit mgr (Some e) st1 in
      if truthy suppress then (Return None, st2) else (Raise e, st2)
  end.

(** Run [f] over a list from left to right; the first exception stops it. *)
Fixpoint mapM_outcome {A B} (f : A -> outcome B) (l : list A) : outcome (list B) :=
  match l with
  | [] => Return []
  | x :: xs => y ← f x; ys ← mapM_outcome f xs; Return (y :: ys)
  end.

(* ===================================================================== *)
(** ** The statements of a model module and their execution *)
(* ===================================================================== *)

(** Field annotations. The module starts with
    [from __future__ import annotations], so an annotation is not evaluated
    when the class body runs; the base class reads it when it builds the
    fields. *)
Inductive ftype :=
| TStr
| TInt
| TFloat
| TBool
| TDatetime
| TAny
| TNone
| TLiteral (choices : list string)
| TList (item : ftype)
| TDict (key val : ftype)
| TOptional (inner : ftype)
| TUnion (members : list ftype).

(** Expressions on the right of an assignment in a class body. [ETrue],
    [EFalse] and [ENone] are the keywords [True], [False] and [None];
    any other identifier is an [EName], looked up when the statement runs. *)
Inductive expr :=
| ENone
| ETrue
| EFalse
| EInt (n : Z)
| EStr (s : string)
| EList (items : list expr)
| EDict (items : list (string * expr))
| EName (id : string)
| ECall (func : string) (keywords : list (string * expr)).

Inductive class_stmt :=
| Doc (s : string)
| Assign (target : string) (rhs : expr)
| Ann (target : string) (annot : ftype)
| AnnAssign (target : string) (annot : ftype) (rhs : expr).

Inductive stmt :=
| FromImport (module : string) (names : list string)
| ClassDef (cname : string) (bases : list string) (body : list class_stmt).

(** A field of a model class: its annotation and its default ([None] for a
    required field). *)
Record FieldInfo := {
  annotation : ftype;
  default : option value
}.

(** A model class as the base class's metaclass leaves it. *)
Record model := {
  cls_name : string;
  model_fields : list (string * FieldInfo);
  model_config : gmap string value
}.

(** What a module-level name is bound to. *)
Inductive global :=
| GImported (qualname : string)
| GClass (m : model).

(** The names of the [builtins] module (CPython 3.11). *)
Definition builtins : list string := [
  "ArithmeticError"; "AssertionError"; "AttributeError"; "BaseException";
  "BaseExceptionGroup"; "BlockingIOError"; "BrokenPipeError"; "BufferError";
  "BytesWarning"; "ChildProcessError"; "ConnectionAbortedError";
  "ConnectionError"; "ConnectionRefusedError"; "ConnectionResetError";
  "DeprecationWarning"; "EOFError"; "Ellipsis"; "EncodingWarning";
  "EnvironmentError"; "Exception"; "ExceptionGroup"; "False";
  "FileExistsError"; "FileNotFoundError"; "FloatingPointError";
  "FutureWarning"; "GeneratorExit"; "IOError"; "ImportError";
  "ImportWarning"; "IndentationError"; "IndexError"; "InterruptedError";
  "IsADirectoryError"; "KeyError"; "KeyboardInterrupt"; "LookupError";
  "MemoryError"; "ModuleNotFoundError"; "NameError"; "None";
  "NotADirectoryError"; "NotImplemented"; "NotImplementedError"; "OSError";
  "OverflowError"; "PendingDeprecationWarning"; "PermissionError";
  "ProcessLookupError"; "RecursionError"; "ReferenceError";
  "ResourceWarning"; "RuntimeError"; "RuntimeWarning";
  "StopAsyncIteration"; "StopIteration"; "SyntaxError"; "SyntaxWarning";
  "SystemError"; "SystemExit"; "TabError"; "TimeoutError"; "True";
  "TypeError"; "UnboundLocalError"; "UnicodeDecodeError";
  "UnicodeEncodeError"; "UnicodeError"; "UnicodeTranslateError";
  "UnicodeWarning"; "UserWarning"; "ValueError"; "Warning";
  "ZeroDivisionError"; "__build_class__"; "__debug__"; "__doc__";
  "__import__"; "__loader__"; "__name__"; "__package__"; "__spec__"; "abs";
  "aiter"; "all"; "anext"; "any"; "ascii"; "bin"; "bool"; "breakpoint";
  "bytearray"; "bytes"; "callable"; "chr"; "classmethod"; "compile";
  "complex"; "copyright"; "credits"; "delattr"; "dict"; "dir"; "divmod";
  "enumerate"; "eval"; "exec"; "exit"; "filter"; "float"; "format";
  "frozenset"; "getattr"; "globals"; "hasattr"; "hash"; "help"; "hex"; "id";
  "input"; "int"; "isinstance"; "issubclass"; "iter"; "len"; "license";
  "list"; "locals"; "map"; "max"; "memoryview"; "min"; "next"; "object";
  "oct"; "open"; "ord"; "pow"; "print"; "property"; "quit"; "range"; "repr";
  "reversed"; "round"; "set"; "setattr"; "slice"; "sorted"; "staticmethod";
  "str"; "sum"; "super"; "tuple"; "type"; "vars"; "zip"
].

(** Name resolution inside a class body: the class namespace, then the
    module globals, then the builtins; otherwise [NameError]. *)
Definition lookup_name (locals : gmap string value) (globals : gmap string global)
    (x : string) : outcome value :=
  match locals !! x with
  | Some v => Return v
  | None =>
      match globals !! x with
      | Some (GImported q) => Return (VObject q)
      | Some (GClass m) => Return (VObject (cls_name m))
      | None =>
          if bool_decide (x ∈ builtins) then Return (VObject ("builtins." +:+ x))
          else Raise (NameError x)
      end
  end.

(** A dict display or keyword set: later keys overwrite earlier ones. *)
Definition dict_of_items (kvs : list (string * value)) : gmap string value :=
  foldl (fun d kv => <[kv.1 := kv.2]> d) ∅ kvs.

(** Modelled from the spec: the two callables of the pydantic library that
    a model module uses. [Field] records the [default] keyword of a field
    (the declared default of the data model); [ConfigDict] is a typed dict
    of its keywords. *)
Definition call (callee : value) (kwargs : list (string * value)) : outcome value :=
  match callee with
  | VObject "pydantic.Field" => Return (VFieldInfo (dict_of_items kwargs !! "default"))
  | VObject "pydantic.ConfigDict" => Return (VDict (dict_of_items kwargs))
  | _ => Raise (TypeError "object is not callable")
  end.

Section Eval.
Variable locals : gmap string value.
Variable globals : gmap string global.

(** Evaluation, left to right; the first exception stops it. *)
Fixpoint eval (e : expr) : outcome value :=
  match e with
  | ENone => Return VNone
  | ETrue => Return (VBool true)
  | EFalse => Return (VBool false)
  | EInt n => Return (VInt n)
  | EStr s => Return (VStr s)
  | EList es => vs ← mapM_outcome eval es; Return (VList vs)
  | EDict kes =>
      kvs ← mapM_outcome (fun ke => v ← eval ke.2; Return (ke.1, v)) kes;
      Return (VDict (dict_of_items kvs))
  | EName x => lookup_name locals globals x
  | ECall f kes =>
      callee ← lookup_name locals globals f;
      kvs ← mapM_outcome (fun ke => v ← eval ke.2; Return (ke.1, v)) kes;
      call callee kvs
  end.
End Eval.

(** [d[k] = v] on an insertion-ordered mapping kept as a list: an existing
    key keeps its place. *)
Fixpoint set_item {A} (k : string) (v : A) (l : list (string * A)) : list (string * A) :=
  match l with
  | [] => [(k, v)]
  | (k', v') :: l' => if String.eqb k k' then (k, v) :: l' else (k', v') :: set_item k v l'
  end.

(** The namespace of a class body while it runs: the names assigned so far
    and [__annotations__]. *)
Record class_ns := {
  ns_locals : gmap string value;
  ns_annotations : list (string * ftype)
}.

Definition exec_class_stmt (globals : gmap string global) (ns : class_ns)
    (s : class_stmt) : outcome class_ns :=
  match s with
  | Doc d =>
      Return {| ns_locals := <["__doc__" := VStr d]> (ns_locals ns);
                ns_annotations := ns_annotations ns |}
  | Assign x e =>
      v ← eval (ns_locals ns) globals e;
      Return {| ns_locals := <[x := v]> (ns_locals ns);
                ns_annotations := ns_annotations ns |}
  | Ann x t =>
      Return {| ns_locals := ns_locals ns;
                ns_annotations := set_item x t (ns_annotations ns) |}
  | AnnAssign x t e =>
      v ← eval (ns_locals ns) globals e;
      Return {| ns_locals := <[x := v]> (ns_locals ns);
                ns_annotations := set_item x t (ns_annotations ns) |}
  end.

Fixpoint exec_class_body (globals : gmap string global) (ns : class_ns)
    (body : list class_stmt) : outcome class_ns :=
  match body with
  | [] => Return ns
  | s :: rest => ns' ← exec_class_stmt globals ns s; exec_class_body globals ns' rest
  end.

(** Modelled from the spec: the field that the base class of the pydantic
    library derives from an annotated name. A [Field(...)] object carries
    its own default, any other assigned value is the default, and a name
    without a value is required. *)
Definition field_of (locals : gmap string value) (x : string) (t : ftype) : FieldInfo :=
  {| annotation := t;
     default := match locals !! x with
                | None => None
                | Some (VFieldInfo d) => d
                | Some v => Some v
                end |}.

(** Modelled from the spec: class creation by the metaclass of pydantic's
    [BaseModel], which collects the annotated names as fields, in order,
    and keeps [model_config]. *)
Definition build_model (cname : string) (ns : class_ns) : model :=
  {| cls_name := cname;
     model_fields :=
       (fun xt => (xt.1, field_of (ns_locals ns) xt.1 xt.2)) <$> ns_annotations ns;
     model_config :=
       match ns_locals ns !! "model_config" with
       | Some (VDict d) => d
       | _ => ∅
       end |}.

(** A class statement: resolve the bases, run the body in a fresh
    namespace that holds [__module__] and [__qualname__], create the
    class. Every class of this package derives from [BaseModel] alone. *)
Definition exec_classdef (globals : gmap string global) (cname : string)
    (bases : list string) (body : list class_stmt) : outcome model :=
  bs ← mapM_outcome (lookup_name ∅ globals) bases;
  match bs with
  | [VObject "pydantic.BaseModel"] =>
      ns ← exec_class_body globals
             {| ns_locals := <["__qualname__" := VStr cname]>
                               (<["__module__" := VObject "__name__"]> ∅);
                ns_annotations := [] |} body;
      Return (build_model cname ns)
  | _ => Raise (TypeError "unsupported base class")
  end.

(** [from m import a, b, ...]: each name is bound to the object of that
    name in [m]. The modules imported this way are the standard library
    and pydantic. *)
Definition bind_imports (globals : gmap string global) (m : string) (names : list string)
    : gmap string global :=
  foldl (fun g n => <[n := GImported (m +:+ "." +:+ n)]> g) globals names.

Definition exec_stmt (globals : gmap string global) (s : stmt)
    : outcome (gmap string global) :=
  match s with
  | FromImport m names => Return (bind_imports globals m names)
  | ClassDef cname bases body =>
      m ← exec_classdef globals cname bases body;
      Return (<[cname := GClass m]> globals)
  end.

(** The globals a module starts with. *)
Definition module_globals (mname : string) : gmap string global :=
  bind_imports ∅ mname
    ["__name__"; "__doc__"; "__package__"; "__loader__"; "__spec__"; "__file__";
     "__cached__"; "__builtins__"].

(** Running a module body: statements in order, stopping at the first
    exception, which then is the result of the import. *)
Fixpoint exec_module (globals : gmap string global) (body : list stmt)
    : outcome (gmap string global) :=
  match body with
  | [] => Return globals
  | s :: rest => g ← exec_stmt globals s; exec_module g rest
  end.

(** [module.attr] on an imported module of this package. *)
Definition getattr_module (mname : string) (g : gmap string global) (attr : string)
    : outcome model :=
  match g !! attr with
  | Some (GClass m) => Return m
  | _ => Raise (AttributeError mname attr)
  end.

(* ===================================================================== *)
(** ** models.py *)
(* ===================================================================== *)

Module models.

(* models.py, line 11 *)
Definition ErrorSeverity : stmt :=
  ClassDef "ErrorSeverity" ["BaseModel"] [
    Doc "errors schema: ErrorSeverity";
    Ann "value" (TLiteral ["fatal"; "error"; "warning"; "info"])
  ].

(* models.py, line 15 *)
Definition ErrorCategory : stmt :=
  ClassDef "ErrorCategory" ["BaseModel"] [
    Doc "errors schema: ErrorCategory";
    Ann "value" (TLiteral ["VALIDATION_ERROR"; "SCHEMA_MISMATCH";
        "RUNTIME_ERROR"; "TIMEOUT"; "NETWORK_ERROR"; "AUTHENTICATION_ERROR";
        "AUTHORIZATION_ERROR"; "RESOURCE_NOT_FOUND"; "RESOURCE_CONFLICT";
        "RATE_LIMITED"; "SERVICE_UNAVAILABLE"; "RUNNER_ERROR";
        "TRUTHCORE_ERROR"; "INTERNAL_ERROR"])
  ].

(* models.py, line 19 *)
Definition RetryPolicy : stmt :=
  ClassDef "RetryPolicy" ["BaseModel"] [
    Doc "errors schema: RetryPolicy";
    AnnAssign "maxRetries" TInt (ECall "Field" [("default", EInt 3)]);
    AnnAssign "backoffMs" TFloat (ECall "Field" [("default", EInt 1000)]);
    AnnAssign "maxBackoffMs" TFloat (ECall "Field" [("default", EInt 30000)]);
    AnnAssign "backoffMultiplier" TFloat (ECall "Field" [("default", EInt
        2)]);
    AnnAssign "retryableCategories" (TList (TLiteral ["VALIDATION_ERROR";
        "SCHEMA_MISMATCH"; "RUNTIME_ERROR"; "TIMEOUT"; "NETWORK_ERROR";
        "AUTHENTICATION_ERROR"; "AUTHORIZATION_ERROR"; "RESOURCE_NOT_FOUND";
        "RESOURCE_CONFLICT"; "RATE_LIMITED"; "SERVICE_UNAVAILABLE";
        "RUNNER_ERROR"; "TRUTHCORE_ERROR"; "INTERNAL_ERROR"])) (ECall "Field"
        [("default", EList [EStr "TIMEOUT"; EStr "NETWORK_ERROR"; EStr
        "SERVICE_UNAVAILABLE"; EStr "RUNTIME_ERROR"])]);
    AnnAssign "nonRetryableCategories" (TList (TLiteral ["VALIDATION_ERROR";
        "SCHEMA_MISMATCH"; "RUNTIME_ERROR"; "TIMEOUT"; "NETWORK_ERROR";
        "AUTHENTICATION_ERROR"; "AUTHORIZATION_ERROR"; "RESOURCE_NOT_FOUND";
        "RESOURCE_CONFLICT"; "RATE_LIMITED"; "SERVICE_UNAVAILABLE";
        "RUNNER_ERROR"; "TRUTHCORE_ERROR"; "INTERNAL_ERROR"])) (ECall "Field"
        [("default", EList [EStr "VALIDATION_ERROR"; EStr "SCHEMA_MISMATCH";
        EStr "AUTHENTICATION_ERROR"; EStr "AUTHORIZATION_ERROR"; EStr
        "RESOURCE_NOT_FOUND"])])
  ].

(* models.py, line 28 *)
Definition ErrorDetail : stmt :=
  ClassDef "ErrorDetail" ["BaseModel"] [
    Doc "errors schema: ErrorDetail";
    Assign "model_config" (ECall "ConfigDict" [("json_schema_extra", EDict
        [("required", EList [EStr "message"])])]);
    AnnAssign "path" (TOptional (TList TStr)) ENone;
    Ann "message" TStr;
    AnnAssign "code" (TOptional TStr) ENone;
    AnnAssign "value" (TOptional TAny) ENone
  ].

(* models.py, line 39 *)
Definition ErrorEnvelope : stmt :=
  ClassDef "ErrorEnvelope" ["BaseModel"] [
    Doc "errors schema: ErrorEnvelope";
    Assign "model_config" (ECall "ConfigDict" [("json_schema_extra", EDict
        [("required", EList [EStr "id"; EStr "timestamp"; EStr "category";
        EStr "severity"; EStr "code"; EStr "message"; EStr "service"; EStr
        "contractVersion"])])]);
    Ann "id" TStr;
    Ann "timestamp" TDatetime;
    Ann "category" (TLiteral ["VALIDATION_ERROR"; "SCHEMA_MISMATCH";
        "RUNTIME_ERROR"; "TIMEOUT"; "NETWORK_ERROR"; "AUTHENTICATION_ERROR";
        "AUTHORIZATION_ERROR"; "RESOURCE_NOT_FOUND"; "RESOURCE_CONFLICT";
        "RATE_LIMITED"; "SERVICE_UNAVAILABLE"; "RUNNER_ERROR";
        "TRUTHCORE_ERROR"; "INTERNAL_ERROR"]);
    Ann "severity" (TLiteral ["fatal"; "error"; "warning"; "info"]);
    Ann "code" TStr;
    Ann "message" TStr;
    AnnAssign "details" (TList (TDict TStr TAny)) (ECall "Field" [("default",
        EList [])]);
    Ann "service" TStr;
    AnnAssign "operation" (TOptional TStr) ENone;
    AnnAssign "correlationId" (TOptional TStr) ENone;
    AnnAssign "causationId" (TOptional TStr) ENone;
    AnnAssign "retryable" TBool (ECall "Field" [("default", EName "false")]);
    AnnAssign "retryAfter" (TOptional TFloat) ENone;
    Ann "contractVersion" (TDict TStr TAny)
  ].

(* models.py, line 62 *)
Definition ContractVersion : stmt :=
  ClassDef "ContractVersion" ["BaseModel"] [
    Doc "versioning schema: ContractVersion";
    Assign "model_config" (ECall "ConfigDict" [("json_schema_extra", EDict
        [("required", EList [EStr "major"; EStr "minor"; EStr "patch"])])]);
    Ann "major" TInt;
    Ann "minor" TInt;
    Ann "patch" TInt;
    AnnAssign "preRelease" (TOptional TStr) ENone
  ].

(* models.py, line 73 *)
Definition ContractRange : stmt :=
  ClassDef "ContractRange" ["BaseModel"] [
    Doc "versioning schema: ContractRange";
    Assign "model_config" (ECall "ConfigDict" [("json_schema_extra", EDict
        [("required", EList [EStr "min"])])]);
    Ann "min" (TDict TStr TAny);
    AnnAssign "max" (TOptional (TDict TStr TAny)) ENone;
    AnnAssign "exact" (TOptional (TDict TStr TAny)) ENone
  ].

(* models.py, line 85 *)
Definition JobId : stmt :=
  ClassDef "JobId" ["BaseModel"] [
    Doc "types schema: JobId";
    Ann "value" TAny
  ].

(* models.py, line 89 *)
Definition JobStatus : stmt :=
  ClassDef "JobStatus" ["BaseModel"] [
    Doc "types schema: JobStatus";
    Ann "value" (TLiteral ["pending"; "queued"; "running"; "completed";
        "failed"; "cancelled"; "retrying"])
  ].

(* models.py, line 93 *)
Definition JobPriority : stmt :=
  ClassDef "JobPriority" ["BaseModel"] [
    Doc "types schema: JobPriority";
    Ann "value" TAny
  ].

(* models.py, line 97 *)
Definition JobMetadata : stmt :=
  ClassDef "JobMetadata" ["BaseModel"] [
    Doc "types schema: JobMetadata";
    Assign "model_config" (ECall "ConfigDict" [("json_schema_extra", EDict
        [("required", EList [EStr "source"; EStr "createdAt"])])]);
    Ann "source" TStr;
    AnnAssign "userId" (TOptional TStr) ENone;
    AnnAssign "sessionId" (TOptional TStr) ENone;
    AnnAssign "correlationId" (TOptional TStr) ENone;
    AnnAssign "causationId" (TOptional TStr) ENone;
    AnnAssign "tags" (TList TStr) (ECall "Field" [("default", EList [])]);
    Ann "createdAt" TDatetime;
    AnnAssign "scheduledAt" (TOptional TDatetime) ENone;
    AnnAssign "expiresAt" (TOptional TDatetime) ENone
  ].

(* models.py, line 113 *)
Definition JobPayload : stmt :=
  ClassDef "JobPayload" ["BaseModel"] [
    Doc "types schema: JobPayload";
    Assign "model_config" (ECall "ConfigDict" [("json_schema_extra", EDict
        [("required", EList [EStr "type"; EStr "data"])])]);
    Ann "type" TStr;
    AnnAssign "version" TStr (ECall "Field" [("default", EStr "1.0.0")]);
    Ann "data" (TDict TStr TAny);
    AnnAssign "options" (TDict TStr TAny) (ECall "Field" [("default", EDict
        [])])
  ].

(* models.py, line 124 *)
Definition JobRequest : stmt :=
  ClassDef "JobRequest" ["BaseModel"] [
    Doc "types schema: JobRequest";
    Assign "model_config" (ECall "ConfigDict" [("json_schema_extra", EDict
        [("required", EList [EStr "id"; EStr "type"; EStr "payload"; EStr
        "metadata"])])]);
    Ann "id" TStr;
    Ann "type" TStr;
    AnnAssign "priority" TInt (ECall "Field" [("default", EInt 50)]);
    Ann "payload" (TDict TStr TAny);
    Ann "metadata" (TDict TStr TAny);
    AnnAssign "retryPolicy" (TDict TStr TAny) (ECall "Field" [("default",
        EDict [("maxRetries", EInt 3); ("backoffMs", EInt 1000);
        ("maxBackoffMs", EInt 30000); ("backoffMultiplier", EInt 2);
        ("retryableCategories", EList []); ("nonRetryableCategories", EList
        [])])]);
    AnnAssign "timeoutMs" TFloat (ECall "Field" [("default", EInt 30000)])
  ].

(* models.py, line 138 *)
Definition JobResult : stmt :=
  ClassDef "JobResult" ["BaseModel"] [
    Doc "types schema: JobResult";
    Assign "model_config" (ECall "ConfigDict" [("json_schema_extra", EDict
        [("required", EList [EStr "success"; EStr "metadata"])])]);
    Ann "success" TBool;
    AnnAssign "data" (TOptional TAny) ENone;
    AnnAssign "error" (TOptional (TDict TStr TAny)) ENone;
    Ann "metadata" (TDict TStr TAny)
  ].

(* models.py, line 149 *)
Definition JobResponse : stmt :=
  ClassDef "JobResponse" ["BaseModel"] [
    Doc "types schema: JobResponse";
    Assign "model_config" (ECall "ConfigDict" [("json_schema_extra", EDict
        [("required", EList [EStr "id"; EStr "status"; EStr "request"; EStr
        "updatedAt"])])]);
    Ann "id" TStr;
    Ann "status" (TLiteral ["pending"; "queued"; "running"; "completed";
        "failed"; "cancelled"; "retrying"]);
    Ann "request" (TDict TStr TAny);
    AnnAssign "result" (TOptional (TDict TStr TAny)) ENone;
    AnnAssign "error" (TOptional (TDict TStr TAny)) ENone;
    Ann "updatedAt" TDatetime
  ].

(* models.py, line 162 *)
Definition RunnerCapability : stmt :=
  ClassDef "RunnerCapability" ["BaseModel"] [
    Doc "types schema: RunnerCapability";
    Assign "model_config" (ECall "ConfigDict" [("json_schema_extra", EDict
        [("required", EList [EStr "id"; EStr "name"; EStr "version"; EStr
        "description"; EStr "inputSchema"; EStr "outputSchema"; EStr
        "supportedJobTypes"])])]);
    Ann "id" TStr;
    Ann "name" TStr;
    Ann "version" TStr;
    Ann "description" TStr;
    Ann "inputSchema" (TDict TStr TAny);
    Ann "outputSchema" (TDict TStr TAny);
    Ann "supportedJobTypes" (TList TStr);
    AnnAssign "maxConcurrency" TInt (ECall "Field" [("default", EInt 1)]);
    AnnAssign "timeoutMs" TFloat (ECall "Field" [("default", EInt 30000)]);
    AnnAssign "resourceRequirements" (TDict TStr TAny) (ECall "Field"
        [("default", EDict [])])
  ].

(* models.py, line 179 *)
Definition RunnerMetadata : stmt :=
  ClassDef "RunnerMetadata" ["BaseModel"] [
    Doc "types schema: RunnerMetadata";
    Assign "model_config" (ECall "ConfigDict" [("json_schema_extra", EDict
        [("required", EList [EStr "id"; EStr "name"; EStr "version"; EStr
        "contractVersion"; EStr "capabilities"; EStr "supportedContracts";
        EStr "healthCheckEndpoint"; EStr "registeredAt"; EStr
        "lastHeartbeatAt"])])]);
    Ann "id" TStr;
    Ann "name" TStr;
    Ann "version" TStr;
    Ann "contractVersion" (TDict TStr TAny);
    Ann "capabilities" (TList (TDict TStr TAny));
    Ann "supportedContracts" (TList TStr);
    Ann "healthCheckEndpoint" TStr;
    Ann "registeredAt" TDatetime;
    Ann "lastHeartbeatAt" TDatetime;
    AnnAssign "status" (TLiteral ["healthy"; "degraded"; "unhealthy";
        "offline"]) (ECall "Field" [("default", EStr "healthy")]);
    AnnAssign "tags" (TList TStr) (ECall "Field" [("default", EList [])])
  ].

(* models.py, line 197 *)
Definition RunnerRegistrationRequest : stmt :=
  ClassDef "RunnerRegistrationRequest" ["BaseModel"] [
    Doc "types schema: RunnerRegistrationRequest";
    Assign "model_config" (ECall "ConfigDict" [("json_schema_extra", EDict
        [("required", EList [EStr "name"; EStr "version"; EStr
        "contractVersion"; EStr "capabilities"; EStr
        "healthCheckEndpoint"])])]);
    Ann "name" TStr;
    Ann "version" TStr;
    Ann "contractVersion" (TDict TStr TAny);
    Ann "capabilities" (TList (TDict TStr TAny));
    Ann "healthCheckEndpoint" TStr;
    AnnAssign "tags" (TList TStr) (ECall "Field" [("default", EList [])])
  ].

(* models.py, line 210 *)
Definition RunnerRegistrationResponse : stmt :=
  ClassDef "RunnerRegistrationResponse" ["BaseModel"] [
    Doc "types schema: RunnerRegistrationResponse";
    Assign "model_config" (ECall "ConfigDict" [("json_schema_extra", EDict
        [("required", EList [EStr "runnerId"; EStr "registeredAt"])])]);
    Ann "runnerId" TStr;
    Ann "registeredAt" TDatetime;
    AnnAssign "heartbeatIntervalMs" TFloat (ECall "Field" [("default", EInt
        30000)])
  ].

(* models.py, line 220 *)
Definition RunnerHeartbeat : stmt :=
  ClassDef "RunnerHeartbeat" ["BaseModel"] [
    Doc "types schema: RunnerHeartbeat";
    Assign "model_config" (ECall "ConfigDict" [("json_schema_extra", EDict
        [("required", EList [EStr "runnerId"; EStr "timestamp"; EStr
        "status"])])]);
    Ann "runnerId" TStr;
    Ann "timestamp" TDatetime;
    Ann "status" (TLiteral ["healthy"; "degraded"; "unhealthy"]);
    AnnAssign "activeJobs" TInt (ECall "Field" [("default", EInt 0)]);
    AnnAssign "queuedJobs" TInt (ECall "Field" [("default", EInt 0)]);
    AnnAssign "metrics" (TDict TStr TAny) (ECall "Field" [("default", EDict
        [])])
  ].

(* models.py, line 233 *)
Definition ModuleManifest : stmt :=
  ClassDef "ModuleManifest" ["BaseModel"] [
    Doc "types schema: ModuleManifest";
    Assign "model_config" (ECall "ConfigDict" [("json_schema_extra", EDict
        [("required", EList [EStr "id"; EStr "name"; EStr "version"; EStr
        "description"; EStr "entryPoint"; EStr "contractVersion"; EStr
        "capabilities"])])]);
    Ann "id" TStr;
    Ann "name" TStr;
    Ann "version" TStr;
    Ann "description" TStr;
    Ann "entryPoint" TStr;
    Ann "contractVersion" (TDict TStr TAny);
    Ann "capabilities" (TList (TDict TStr TAny));
    AnnAssign "dependencies" (TList TStr) (ECall "Field" [("default", EList
        [])]);
    AnnAssign "configSchema" (TOptional (TDict TStr TAny)) ENone;
    AnnAssign "defaultConfig" (TDict TStr TAny) (ECall "Field" [("default",
        EDict [])])
  ].

(* models.py, line 250 *)
Definition RunnerExecutionRequest : stmt :=
  ClassDef "RunnerExecutionRequest" ["BaseModel"] [
    Doc "types schema: RunnerExecutionRequest";
    Assign "model_config" (ECall "ConfigDict" [("json_schema_extra", EDict
        [("required", EList [EStr "jobId"; EStr "moduleId"; EStr
        "capabilityId"; EStr "payload"])])]);
    Ann "jobId" TStr;
    Ann "moduleId" TStr;
    Ann "capabilityId" TStr;
    Ann "payload" (TDict TStr TAny);
    AnnAssign "timeoutMs" TFloat (ECall "Field" [("default", EInt 30000)]);
    AnnAssign "metadata" (TDict TStr TAny) (ECall "Field" [("default", EDict
        [])])
  ].

(* models.py, line 263 *)
Definition RunnerExecutionResponse : stmt :=
  ClassDef "RunnerExecutionResponse" ["BaseModel"] [
    Doc "types schema: RunnerExecutionResponse";
    Assign "model_config" (ECall "ConfigDict" [("json_schema_extra", EDict
        [("required", EList [EStr "jobId"; EStr "success"; EStr
        "executionTimeMs"; EStr "runnerId"])])]);
    Ann "jobId" TStr;
    Ann "success" TBool;
    AnnAssign "data" (TOptional TAny) ENone;
    AnnAssign "error" (TOptional (TDict TStr TAny)) ENone;
    Ann "executionTimeMs" TFloat;
    Ann "runnerId" TStr
  ].

(* models.py, line 276 *)
Definition TruthAssertion : stmt :=
  ClassDef "TruthAssertion" ["BaseModel"] [
    Doc "types schema: TruthAssertion";
    Assign "model_config" (ECall "ConfigDict" [("json_schema_extra", EDict
        [("required", EList [EStr "id"; EStr "subject"; EStr "predicate"; EStr
        "object"; EStr "timestamp"; EStr "source"])])]);
    Ann "id" TStr;
    Ann "subject" TStr;
    Ann "predicate" TStr;
    Ann "object" (TUnion [TStr; TFloat; TBool; TNone; TList TAny; TDict TStr
        TAny]);
    AnnAssign "confidence" TFloat (ECall "Field" [("default", EInt 1)]);
    Ann "timestamp" TDatetime;
    Ann "source" TStr;
    AnnAssign "expiresAt" (TOptional TDatetime) ENone;
    AnnAssign "metadata" (TDict TStr TAny) (ECall "Field" [("default", EDict
        [])])
  ].

(* models.py, line 292 *)
Definition TruthQuery : stmt :=
  ClassDef "TruthQuery" ["BaseModel"] [
    Doc "types schema: TruthQuery";
    Assign "model_config" (ECall "ConfigDict" [("json_schema_extra", EDict
        [("required", EList [EStr "id"; EStr "pattern"])])]);
    Ann "id" TStr;
    Ann "pattern" (TDict TStr TAny);
    AnnAssign "filters" (TDict TStr TAny) (ECall "Field" [("default", EDict
        [])]);
    AnnAssign "limit" TInt (ECall "Field" [("default", EInt 100)]);
    AnnAssign "offset" TInt (ECall "Field" [("default", EInt 0)])
  ].

(* models.py, line 304 *)
Definition TruthQueryResult : stmt :=
  ClassDef "TruthQueryResult" ["BaseModel"] [
    Doc "types schema: TruthQueryResult";
    Assign "model_config" (ECall "ConfigDict" [("json_schema_extra", EDict
        [("required", EList [EStr "queryId"; EStr "assertions"; EStr
        "totalCount"; EStr "queryTimeMs"])])]);
    Ann "queryId" TStr;
    Ann "assertions" (TList (TDict TStr TAny));
    Ann "totalCount" TInt;
    AnnAssign "hasMore" TBool (ECall "Field" [("default", EName "false")]);
    Ann "queryTimeMs" TFloat
  ].

(* models.py, line 316 *)
Definition TruthSubscription : stmt :=
  ClassDef "TruthSubscription" ["BaseModel"] [
    Doc "types schema: TruthSubscription";
    Assign "model_config" (ECall "ConfigDict" [("json_schema_extra", EDict
        [("required", EList [EStr "id"; EStr "pattern"; EStr
        "createdAt"])])]);
    Ann "id" TStr;
    Ann "pattern" (TDict TStr TAny);
    AnnAssign "filters" (TDict TStr TAny) (ECall "Field" [("default", EDict
        [])]);
    AnnAssign "webhookUrl" (TOptional TStr) ENone;
    Ann "createdAt" TDatetime
  ].

(* models.py, line 328 *)
Definition TruthCoreRequest : stmt :=
  ClassDef "TruthCoreRequest" ["BaseModel"] [
    Doc "types schema: TruthCoreRequest";
    Assign "model_config" (ECall "ConfigDict" [("json_schema_extra", EDict
        [("required", EList [EStr "id"; EStr "type"; EStr "payload"; EStr
        "metadata"])])]);
    Ann "id" TStr;
    Ann "type" (TLiteral ["assert"; "query"; "subscribe"; "unsubscribe"]);
    Ann "payload" (TDict TStr TAny);
    Ann "metadata" (TDict TStr TAny)
  ].

(* models.py, line 339 *)
Definition TruthCoreResponse : stmt :=
  ClassDef "TruthCoreResponse" ["BaseModel"] [
    Doc "types schema: TruthCoreResponse";
    Assign "model_config" (ECall "ConfigDict" [("json_schema_extra", EDict
        [("required", EList [EStr "requestId"; EStr "success"; EStr
        "timestamp"])])]);
    Ann "requestId" TStr;
    Ann "success" TBool;
    AnnAssign "data" (TOptional TAny) ENone;
    AnnAssign "error" (TOptional (TDict TStr TAny)) ENone;
    Ann "timestamp" TDatetime
  ].

(* models.py, line 351 *)
Definition ConsistencyLevel : stmt :=
  ClassDef "ConsistencyLevel" ["BaseModel"] [
    Doc "types schema: ConsistencyLevel";
    Ann "value" (TLiteral ["strict"; "eventual"; "best_effort"])
  ].

(* models.py, line 355 *)
Definition TruthValue : stmt :=
  ClassDef "TruthValue" ["BaseModel"] [
    Doc "types schema: TruthValue";
    Ann "value" TAny
  ].

(* models.py, line 359 *)
Definition HealthStatus : stmt :=
  ClassDef "HealthStatus" ["BaseModel"] [
    Doc "types schema: HealthStatus";
    Ann "value" (TLiteral ["healthy"; "degraded"; "unhealthy"; "unknown"])
  ].

(* models.py, line 363 *)
Definition HealthCheck : stmt :=
  ClassDef "HealthCheck" ["BaseModel"] [
    Doc "types schema: HealthCheck";
    Assign "model_config" (ECall "ConfigDict" [("json_schema_extra", EDict
        [("required", EList [EStr "service"; EStr "status"; EStr "timestamp";
        EStr "version"; EStr "uptime"])])]);
    Ann "service" TStr;
    Ann "status" (TLiteral ["healthy"; "degraded"; "unhealthy"; "unknown"]);
    Ann "timestamp" TDatetime;
    Ann "version" TStr;
    Ann "uptime" TFloat;
    AnnAssign "checks" (TList (TDict TStr TAny)) (ECall "Field" [("default",
        EList [])])
  ].

(* models.py, line 376 *)
Definition ServiceMetadata : stmt :=
  ClassDef "ServiceMetadata" ["BaseModel"] [
    Doc "types schema: ServiceMetadata";
    Assign "model_config" (ECall "ConfigDict" [("json_schema_extra", EDict
        [("required", EList [EStr "name"; EStr "version"; EStr
        "contractVersion"; EStr "startTime"])])]);
    Ann "name" TStr;
    Ann "version" TStr;
    Ann "contractVersion" TStr;
    AnnAssign "environment" (TLiteral ["development"; "staging";
        "production"]) (ECall "Field" [("default", EStr "development")]);
    Ann "startTime" TDatetime;
    AnnAssign "features" (TList TStr) (ECall "Field" [("default", EList [])])
  ].

(* models.py, line 389 *)
Definition PaginatedRequest : stmt :=
  ClassDef "PaginatedRequest" ["BaseModel"] [
    Doc "types schema: PaginatedRequest";
    AnnAssign "limit" TInt (ECall "Field" [("default", EInt 100)]);
    AnnAssign "offset" TInt (ECall "Field" [("default", EInt 0)]);
    AnnAssign "cursor" (TOptional TStr) ENone;
    AnnAssign "sortBy" (TOptional TStr) ENone;
    AnnAssign "sortOrder" (TLiteral ["asc"; "desc"]) (ECall "Field"
        [("default", EStr "asc")])
  ].

(* models.py, line 397 *)
Definition PaginatedResponse : stmt :=
  ClassDef "PaginatedResponse" ["BaseModel"] [
    Doc "types schema: PaginatedResponse";
    Assign "model_config" (ECall "ConfigDict" [("json_schema_extra", EDict
        [("required", EList [EStr "items"; EStr "total"; EStr "limit"; EStr
        "offset"; EStr "hasMore"])])]);
    Ann "items" (TList TAny);
    Ann "total" TInt;
    Ann "limit" TInt;
    Ann "offset" TInt;
    Ann "hasMore" TBool;
    AnnAssign "nextCursor" (TOptional TStr) ENone
  ].

(* models.py, line 410 *)
Definition ApiRequest : stmt :=
  ClassDef "ApiRequest" ["BaseModel"] [
    Doc "types schema: ApiRequest";
    Assign "model_config" (ECall "ConfigDict" [("json_schema_extra", EDict
        [("required", EList [EStr "id"; EStr "method"; EStr "path"; EStr
        "body"; EStr "metadata"])])]);
    Ann "id" TStr;
    Ann "method" (TLiteral ["GET"; "POST"; "PUT"; "PATCH"; "DELETE"]);
    Ann "path" TStr;
    AnnAssign "headers" (TDict TStr TStr) (ECall "Field" [("default", EDict
        [])]);
    AnnAssign "query" (TDict TStr TAny) (ECall "Field" [("default", EDict
        [])]);
    Ann "body" TAny;
    Ann "metadata" (TDict TStr TAny)
  ].

(* models.py, line 424 *)
Definition ApiResponse : stmt :=
  ClassDef "ApiResponse" ["BaseModel"] [
    Doc "types schema: ApiResponse";
    Assign "model_config" (ECall "ConfigDict" [("json_schema_extra", EDict
        [("required", EList [EStr "requestId"; EStr "statusCode"; EStr "body";
        EStr "metadata"])])]);
    Ann "requestId" TStr;
    Ann "statusCode" TInt;
    AnnAssign "headers" (TDict TStr TStr) (ECall "Field" [("default", EDict
        [])]);
    Ann "body" TAny;
    AnnAssign "error" (TOptional (TDict TStr TAny)) ENone;
    Ann "metadata" (TDict TStr TAny)
  ].

(* models.py, line 437 *)
Definition CapabilityRegistry : stmt :=
  ClassDef "CapabilityRegistry" ["BaseModel"] [
    Doc "types schema: CapabilityRegistry";
    Assign "model_config" (ECall "ConfigDict" [("json_schema_extra", EDict
        [("required", EList [EStr "version"; EStr "generatedAt"; EStr
        "system"; EStr "truthcore"; EStr "runners"; EStr "connectors"; EStr
        "summary"])])]);
    Ann "version" TStr;
    Ann "generatedAt" TDatetime;
    Ann "system" (TDict TStr TAny);
    Ann "truthcore" (TDict TStr TAny);
    Ann "runners" (TList (TDict TStr TAny));
    Ann "connectors" (TList (TDict TStr TAny));
    Ann "summary" (TDict TStr TAny)
  ].

(* models.py, line 451 *)
Definition RegisteredRunner : stmt :=
  ClassDef "RegisteredRunner" ["BaseModel"] [
    Doc "types schema: RegisteredRunner";
    Assign "model_config" (ECall "ConfigDict" [("json_schema_extra", EDict
        [("required", EList [EStr "metadata"; EStr "category"; EStr
        "connectors"; EStr "health"; EStr "capabilities"])])]);
    Ann "metadata" (TDict TStr TAny);
    Ann "category" (TLiteral ["ops"; "finops"; "support"; "growth";
        "analytics"; "security"; "infrastructure"; "custom"]);
    Ann "connectors" (TList TStr);
    Ann "health" (TDict TStr TAny);
    Ann "capabilities" (TList (TDict TStr TAny))
  ].

(* models.py, line 463 *)
Definition ConnectorConfig : stmt :=
  ClassDef "ConnectorConfig" ["BaseModel"] [
    Doc "types schema: ConnectorConfig";
    Assign "model_config" (ECall "ConfigDict" [("json_schema_extra", EDict
        [("required", EList [EStr "id"; EStr "name"; EStr "type"; EStr
        "version"; EStr "description"; EStr "configSchema"])])]);
    Ann "id" TStr;
    Ann "name" TStr;
    Ann "type" (TLiteral ["database"; "queue"; "storage"; "api"; "webhook";
        "stream"; "cache"; "messaging"]);
    Ann "version" TStr;
    Ann "description" TStr;
    Ann "configSchema" (TDict TStr TAny);
    AnnAssign "required" TBool (ECall "Field" [("default", EName "false")]);
    AnnAssign "healthCheckable" TBool (ECall "Field" [("default", EName
        "true")])
  ].

(* models.py, line 478 *)
Definition ConnectorType : stmt :=
  ClassDef "ConnectorType" ["BaseModel"] [
    Doc "types schema: ConnectorType";
    Ann "value" (TLiteral ["database"; "queue"; "storage"; "api"; "webhook";
        "stream"; "cache"; "messaging"])
  ].

(* models.py, line 482 *)
Definition ConnectorInstance : stmt :=
  ClassDef "ConnectorInstance" ["BaseModel"] [
    Doc "types schema: ConnectorInstance";
    Assign "model_config" (ECall "ConfigDict" [("json_schema_extra", EDict
        [("required", EList [EStr "config"; EStr "status"])])]);
    Ann "config" (TDict TStr TAny);
    Ann "status" (TLiteral ["connected"; "disconnected"; "error"; "unknown"]);
    AnnAssign "lastConnectedAt" (TOptional TDatetime) ENone;
    AnnAssign "lastErrorAt" (TOptional TDatetime) ENone;
    AnnAssign "errorMessage" (TOptional TStr) ENone;
    AnnAssign "metadata" (TDict TStr TAny) (ECall "Field" [("default", EDict
        [])])
  ].

(* models.py, line 495 *)
Definition RunnerCategory : stmt :=
  ClassDef "RunnerCategory" ["BaseModel"] [
    Doc "types schema: RunnerCategory";
    Ann "value" (TLiteral ["ops"; "finops"; "support"; "growth"; "analytics";
        "security"; "infrastructure"; "custom"])
  ].

(* models.py, line 499 *)
Definition RegistryQuery : stmt :=
  ClassDef "RegistryQuery" ["BaseModel"] [
    Doc "types schema: RegistryQuery";
    AnnAssign "category" (TOptional (TLiteral ["ops"; "finops"; "support";
        "growth"; "analytics"; "security"; "infrastructure"; "custom"]))
        ENone;
    AnnAssign "connectorType" (TOptional (TLiteral ["database"; "queue";
        "storage"; "api"; "webhook"; "stream"; "cache"; "messaging"])) ENone;
    AnnAssign "healthStatus" (TLiteral ["healthy"; "degraded"; "unhealthy";
        "offline"; "any"]) (ECall "Field" [("default", EStr "any")]);
    AnnAssign "includeCapabilities" TBool (ECall "Field" [("default", EName
        "true")]);
    AnnAssign "includeConnectors" TBool (ECall "Field" [("default", EName
        "true")])
  ].

(* models.py, line 507 *)
Definition RegistryDiff : stmt :=
  ClassDef "RegistryDiff" ["BaseModel"] [
    Doc "types schema: RegistryDiff";
    Assign "model_config" (ECall "ConfigDict" [("json_schema_extra", EDict
        [("required", EList [EStr "added"; EStr "removed"; EStr "modified";
        EStr "timestamp"; EStr "previousChecksum"; EStr
        "currentChecksum"])])]);
    Ann "added" (TList (TDict TStr TAny));
    Ann "removed" (TList (TDict TStr TAny));
    Ann "modified" (TList (TDict TStr TAny));
    Ann "timestamp" TDatetime;
    Ann "previousChecksum" TStr;
    Ann "currentChecksum" TStr
  ].

(* models.py, line 520 *)
Definition MarketplaceIndex : stmt :=
  ClassDef "MarketplaceIndex" ["BaseModel"] [
    Doc "types schema: MarketplaceIndex";
    Assign "model_config" (ECall "ConfigDict" [("json_schema_extra", EDict
        [("required", EList [EStr "version"; EStr "generatedAt"; EStr
        "schema"; EStr "system"; EStr "stats"; EStr "runners"; EStr
        "connectors"; EStr "filters"])])]);
    Ann "version" TStr;
    Ann "generatedAt" TDatetime;
    Ann "schema" (TDict TStr TAny);
    Ann "system" (TDict TStr TAny);
    Ann "stats" (TDict TStr TAny);
    Ann "runners" (TList (TDict TStr TAny));
    Ann "connectors" (TList (TDict TStr TAny));
    Ann "filters" (TDict TStr TAny)
  ].

(* models.py, line 535 *)
Definition MarketplaceRunner : stmt :=
  ClassDef "MarketplaceRunner" ["BaseModel"] [
    Doc "types schema: MarketplaceRunner";
    Assign "model_config" (ECall "ConfigDict" [("json_schema_extra", EDict
        [("required", EList [EStr "id"; EStr "metadata"; EStr "category"; EStr
        "description"; EStr "author"; EStr "license"; EStr "capabilities";
        EStr "compatibility"; EStr "trustSignals"; EStr "publishedAt"; EStr
        "updatedAt"])])]);
    Ann "id" TStr;
    Ann "metadata" (TDict TStr TAny);
    Ann "category" (TLiteral ["ops"; "finops"; "support"; "growth";
        "analytics"; "security"; "infrastructure"; "custom"]);
    Ann "description" TStr;
    AnnAssign "longDescription" (TOptional TStr) ENone;
    Ann "author" (TDict TStr TAny);
    AnnAssign "repository" (TOptional (TDict TStr TAny)) ENone;
    AnnAssign "documentation" (TDict TStr TAny) (ECall "Field" [("default",
        EDict [])]);
    Ann "license" TStr;
    AnnAssign "keywords" (TList TStr) (ECall "Field" [("default", EList [])]);
    Ann "capabilities" (TList (TDict TStr TAny));
    Ann "compatibility" (TDict TStr TAny);
    Ann "trustSignals" (TDict TStr TAny);
    AnnAssign "deprecation" (TDict TStr TAny) (ECall "Field" [("default",
        EDict [("isDeprecated", EName "false")])]);
    AnnAssign "status" (TLiteral ["active"; "deprecated"; "pending_review";
        "rejected"; "delisted"]) (ECall "Field" [("default", EStr "active")]);
    Ann "publishedAt" TDatetime;
    Ann "updatedAt" TDatetime;
    AnnAssign "versionHistory" (TList (TDict TStr TAny)) (ECall "Field"
        [("default", EList [])]);
    AnnAssign "installation" (TDict TStr TAny) (ECall "Field" [("default",
        EDict [])])
  ].

(* models.py, line 561 *)
Definition MarketplaceConnector : stmt :=
  ClassDef "MarketplaceConnector" ["BaseModel"] [
    Doc "types schema: MarketplaceConnector";
    Assign "model_config" (ECall "ConfigDict" [("json_schema_extra", EDict
        [("required", EList [EStr "id"; EStr "config"; EStr "description";
        EStr "author"; EStr "license"; EStr "inputSchema"; EStr
        "outputSchema"; EStr "compatibility"; EStr "trustSignals"; EStr
        "publishedAt"; EStr "updatedAt"])])]);
    Ann "id" TStr;
    Ann "config" (TDict TStr TAny);
    Ann "description" TStr;
    AnnAssign "longDescription" (TOptional TStr) ENone;
    Ann "author" (TDict TStr TAny);
    AnnAssign "repository" (TOptional (TDict TStr TAny)) ENone;
    AnnAssign "documentation" (TDict TStr TAny) (ECall "Field" [("default",
        EDict [])]);
    Ann "license" TStr;
    AnnAssign "keywords" (TList TStr) (ECall "Field" [("default", EList [])]);
    Ann "inputSchema" (TDict TStr TAny);
    Ann "outputSchema" (TDict TStr TAny);
    Ann "compatibility" (TDict TStr TAny);
    Ann "trustSignals" (TDict TStr TAny);
    AnnAssign "deprecation" (TDict TStr TAny) (ECall "Field" [("default",
        EDict [("isDeprecated", EName "false")])]);
    AnnAssign "status" (TLiteral ["active"; "deprecated"; "pending_review";
        "rejected"; "delisted"]) (ECall "Field" [("default", EStr "active")]);
    Ann "publishedAt" TDatetime;
    Ann "updatedAt" TDatetime;
    AnnAssign "versionHistory" (TList (TDict TStr TAny)) (ECall "Field"
        [("default", EList [])]);
    AnnAssign "installation" (TDict TStr TAny) (ECall "Field" [("default",
        EDict [])])
  ].

(* models.py, line 587 *)
Definition MarketplaceQuery : stmt :=
  ClassDef "MarketplaceQuery" ["BaseModel"] [
    Doc "types schema: MarketplaceQuery";
    AnnAssign "type" (TLiteral ["runner"; "connector"; "all"]) (ECall "Field"
        [("default", EStr "all")]);
    AnnAssign "category" (TOptional TStr) ENone;
    AnnAssign "connectorType" (TOptional TStr) ENone;
    AnnAssign "status" (TLiteral ["active"; "deprecated"; "pending_review";
        "all"]) (ECall "Field" [("default", EStr "active")]);
    AnnAssign "trustLevel" (TLiteral ["verified"; "community"; "all"]) (ECall
        "Field" [("default", EStr "all")]);
    AnnAssign "search" (TOptional TStr) ENone;
    AnnAssign "compatibilityVersion" (TOptional (TDict TStr TAny)) ENone;
    AnnAssign "author" (TOptional TStr) ENone;
    AnnAssign "keywords" (TList TStr) (ECall "Field" [("default", EList [])]);
    AnnAssign "sortBy" (TLiteral ["relevance"; "name"; "published"; "updated";
        "rating"; "downloads"]) (ECall "Field" [("default", EStr
        "relevance")]);
    AnnAssign "sortOrder" (TLiteral ["asc"; "desc"]) (ECall "Field"
        [("default", EStr "desc")]);
    AnnAssign "limit" TFloat (ECall "Field" [("default", EInt 20)]);
    AnnAssign "offset" TFloat (ECall "Field" [("default", EInt 0)])
  ].

(* models.py, line 603 *)
Definition MarketplaceQueryResult : stmt :=
  ClassDef "MarketplaceQueryResult" ["BaseModel"] [
    Doc "types schema: MarketplaceQueryResult";
    Assign "model_config" (ECall "ConfigDict" [("json_schema_extra", EDict
        [("required", EList [EStr "query"; EStr "total"; EStr "hasMore"; EStr
        "items"; EStr "facets"])])]);
    Ann "query" (TDict TStr TAny);
    Ann "total" TFloat;
    Ann "hasMore" TBool;
    Ann "items" (TList (TUnion [TDict TStr TAny; TDict TStr TAny]));
    Ann "facets" (TDict TStr TAny)
  ].

(* models.py, line 615 *)
Definition MarketplaceTrustSignals : stmt :=
  ClassDef "MarketplaceTrustSignals" ["BaseModel"] [
    Doc "types schema: MarketplaceTrustSignals";
    Assign "model_config" (ECall "ConfigDict" [("json_schema_extra", EDict
        [("required", EList [EStr "overallTrust"; EStr "contractTestStatus";
        EStr "verificationMethod"; EStr "securityScanStatus"])])]);
    Ann "overallTrust" (TLiteral ["verified"; "pending"; "failed";
        "unverified"]);
    Ann "contractTestStatus" (TLiteral ["passing"; "failing"; "not_tested";
        "stale"]);
    AnnAssign "lastContractTestAt" (TOptional TDatetime) ENone;
    AnnAssign "lastVerifiedVersion" (TOptional TStr) ENone;
    Ann "verificationMethod" (TLiteral ["automated_ci"; "manual_review";
        "community_verified"; "official_publisher"]);
    Ann "securityScanStatus" (TLiteral ["passed"; "failed"; "pending";
        "not_scanned"]);
    AnnAssign "lastSecurityScanAt" (TOptional TDatetime) ENone;
    AnnAssign "securityScanDetails" (TDict TStr TAny) (ECall "Field"
        [("default", EDict [])]);
    AnnAssign "codeQualityScore" (TOptional TFloat) ENone;
    AnnAssign "maintainerReputation" (TLiteral ["official"; "verified";
        "community"; "unknown"]) (ECall "Field" [("default", EStr
        "unknown")]);
    AnnAssign "downloadCount" TFloat (ECall "Field" [("default", EInt 0)]);
    AnnAssign "rating" (TDict TStr TAny) (ECall "Field" [("default", EDict
        [])])
  ].

(* models.py, line 634 *)
Definition TrustStatus : stmt :=
  ClassDef "TrustStatus" ["BaseModel"] [
    Doc "types schema: TrustStatus";
    Ann "value" (TLiteral ["verified"; "pending"; "failed"; "unverified"])
  ].

(* models.py, line 638 *)
Definition SecurityScanStatus : stmt :=
  ClassDef "SecurityScanStatus" ["BaseModel"] [
    Doc "types schema: SecurityScanStatus";
    Ann "value" (TLiteral ["passed"; "failed"; "pending"; "not_scanned"])
  ].

(* models.py, line 642 *)
Definition ContractTestStatus : stmt :=
  ClassDef "ContractTestStatus" ["BaseModel"] [
    Doc "types schema: ContractTestStatus";
    Ann "value" (TLiteral ["passing"; "failing"; "not_tested"; "stale"])
  ].

(* models.py, line 646 *)
Definition VerificationMethod : stmt :=
  ClassDef "VerificationMethod" ["BaseModel"] [
    Doc "types schema: VerificationMethod";
    Ann "value" (TLiteral ["automated_ci"; "manual_review";
        "community_verified"; "official_publisher"])
  ].

(** The import statements at the top of the module. *)
Definition imports : list stmt := [
  FromImport "__future__" ["annotations"];
  FromImport "datetime" ["datetime"];
  FromImport "typing" ["Any"; "Dict"; "List"; "Optional"; "Union"; "Literal";
      "TypeVar"; "Generic"];
  FromImport "pydantic" ["BaseModel"; "Field"; "ConfigDict"]
].

(** The class statements, in the order of the file. *)
Definition classes : list stmt := [
  ErrorSeverity; ErrorCategory; RetryPolicy; ErrorDetail; ErrorEnvelope;
  ContractVersion; ContractRange; JobId; JobStatus; JobPriority; JobMetadata;
  JobPayload; JobRequest; JobResult; JobResponse; RunnerCapability;
  RunnerMetadata; RunnerRegistrationRequest; RunnerRegistrationResponse;
  RunnerHeartbeat; ModuleManifest; RunnerExecutionRequest;
  RunnerExecutionResponse; TruthAssertion; TruthQuery; TruthQueryResult;
  TruthSubscription; TruthCoreRequest; TruthCoreResponse; ConsistencyLevel;
  TruthValue; HealthStatus; HealthCheck; ServiceMetadata; PaginatedRequest;
  PaginatedResponse; ApiRequest; ApiResponse; CapabilityRegistry;
  RegisteredRunner; ConnectorConfig; ConnectorType; ConnectorInstance;
  RunnerCategory; RegistryQuery; RegistryDiff; MarketplaceIndex;
  MarketplaceRunner; MarketplaceConnector; MarketplaceQuery;
  MarketplaceQueryResult; MarketplaceTrustSignals; TrustStatus;
  SecurityScanStatus; ContractTestStatus; VerificationMethod
].

Definition source : list stmt := imports ++ classes.

End models.

(* ===================================================================== *)
(** ** The validator of the base class *)
(* ===================================================================== *)

(** Modelled from the spec: the conversions from text, and from numbers to
    dates, that the validator of the pydantic library applies when it
    converts a value to a declared type. Their grammars belong to the
    library, so the development is stated for any such functions. *)
Class TextFormats := {
  str_as_int : string -> option Z;
  str_as_float : string -> option spec_float;
  str_as_bool : string -> option bool;
  str_as_datetime : string -> option datetime;
  int_as_datetime : Z -> option datetime;
  float_as_datetime : spec_float -> option datetime
}.

(** The result of checking a value, a list of values or a set of fields:
    the checked data, or the errors found. *)
Inductive checked (A : Type) :=
| Valid (a : A)
| Invalid (errors : list error_detail).
Arguments Valid {A} a.
Arguments Invalid {A} errors.

#[global] Instance checked_fmap : FMap checked := fun A B f c =>
  match c with
  | Valid a => Valid (f a)
  | Invalid es => Invalid es
  end.

Definition failure {A} (ty msg : string) (input : value) : checked A :=
  Invalid [{| err_type := ty; err_loc := []; err_msg := msg; err_input := input |}].

(** Put a location component in front of an error. *)
Definition at_loc (i : loc_item) (e : error_detail) : error_detail :=
  {| err_type := err_type e; err_loc := i :: err_loc e;
     err_msg := err_msg e; err_input := err_input e |}.

Definition under {A} (i : loc_item) (c : checked A) : checked A :=
  match c with
  | Valid a => Valid a
  | Invalid es => Invalid (at_loc i <$> es)
  end.

(** Checking does not stop at the first error: the errors of the head and
    of the tail are both kept. *)
Definition collect {A} (head : checked A) (tail : checked (list A)) : checked (list A) :=
  match head, tail with
  | Valid a, Valid l => Valid (a :: l)
  | Valid _, Invalid es => Invalid es
  | Invalid es, Valid _ => Invalid es
  | Invalid es, Invalid es' => Invalid (es ++ es')
  end.

(** The items of a list, each checked with [f] under its index. *)
Fixpoint check_items (f : value -> checked value) (i : nat) (vs : list value)
    : checked (list value) :=
  match vs with
  | [] => Valid []
  | v :: rest => collect (under (LIdx i) (f v)) (check_items f (S i) rest)
  end.

(** The entries of a dict: keys checked with [fk], values with [fv], both
    under the key. *)
Fixpoint check_entries (fk fv : value -> checked value) (kvs : list (string * value))
    : checked (list (string * value)) :=
  match kvs with
  | [] => Valid []
  | (k, v) :: rest =>
      let entry :=
        match under (LKey k) (fk (VStr k)), under (LKey k) (fv v) with
        | Valid _, Valid v' => Valid (k, v')
        | Valid _, Invalid es => Invalid es
        | Invalid es, Valid _ => Invalid es
        | Invalid es, Invalid es' => Invalid (es ++ es')
        end in
      collect entry (check_entries fk fv rest)
  end.

(** A value that already has the declared type, without any conversion:
    the exact match of value and type. *)
Fixpoint has_type (t : ftype) (v : value) : bool :=
  match t, v with
  | TAny, _ => true
  | TStr, VStr _ => true
  | TInt, VInt _ => true
  | TFloat, VFloat _ => true
  | TBool, VBool _ => true
  | TDatetime, VDatetime _ => true
  | TNone, VNone => true
  | TLiteral cs, VStr s => bool_decide (s ∈ cs)
  | TList item, VList vs => forallb (has_type item) vs
  | TDict key val, VDict d =>
      forallb (fun kv => has_type key (VStr kv.1) && has_type val kv.2) (map_to_list d)
  | TOptional inner, _ =>
      match v with VNone => true | _ => has_type inner v end
  | TUnion members, _ => existsb (fun m => has_type m v) members
  | _, _ => false
  end.

(** The label of a union member in an error location. *)
Definition type_label (t : ftype) : string :=
  match t with
  | TStr => "str" | TInt => "int" | TFloat => "float" | TBool => "bool"
  | TDatetime => "datetime" | TAny => "any" | TNone => "none"
  | TLiteral _ => "literal" | TList _ => "list" | TDict _ _ => "dict"
  | TOptional _ => "nullable" | TUnion _ => "union"
  end.

(** An instance of a model class: its class and its field values, in
    declaration order. *)
Record instance := {
  inst_class : string;
  inst_dict : list (string * value)
}.

(** Modelled from the spec: the attributes an instance finds on its class
    rather than among its own fields: those every model class inherits
    from the base class of the pydantic library ([model_fields],
    [model_validate], [__class__], ...) and the [model_config] the class
    was given. The inherited names belong to the library, so the
    development is stated for any such lookup, by the name of the class
    and of the attribute. *)
Class ClassAttributes := class_attribute : string -> string -> option value.

(** [instance.attr]: the value of the field of that name; for a name that
    is no field, the attribute the class provides; and the
    [AttributeError] of [BaseModel.__getattr__] when the class provides
    none either. *)
Definition getattr `{ClassAttributes} (i : instance) (attr : string) : outcome value :=
  match list_find (fun kv => kv.1 = attr) (inst_dict i) with
  | Some (_, (_, v)) => Return v
  | None =>
      match class_attribute (inst_class i) attr with
      | Some v => Return v
      | None => Raise (AttributeError (inst_class i) attr)
      end
  end.

Definition of_option {A} (o : option A) (ty msg : string) (input : value) : checked A :=
  match o with
  | Some a => Valid a
  | None => failure ty msg input
  end.

Definition finite (f : spec_float) : option spec_float :=
  match f with
  | S754_zero _ | S754_finite _ _ _ => Some f
  | _ => None
  end.

Definition int_as_bool (n : Z) : option bool :=
  if n =? 0 then Some false else if n =? 1 then Some true else None.

(** Modelled from the spec: the integer the validator of the pydantic
    library reads a float as. The float must be finite, have no
    fractional part, and lie strictly between [-2^63] and [2^63], the
    range of the signed 64-bit integer the library converts it to. *)
Definition float_as_int (f : spec_float) (input : value) : checked Z :=
  match f with
  | S754_infinity _ | S754_nan =>
      failure "finite_number" "Input should be a finite number" input
  | _ =>
      match int_of_float f with
      | None =>
          failure "int_from_float"
            "Input should be a valid integer, got a number with a fractional part" input
      | Some n =>
          if (- 2 ^ 63 <? n) && (n <? 2 ^ 63) then Valid n
          else failure "int_parsing_size"
                 "Unable to parse input string as an integer, exceeded maximum size" input
      end
  end.

Section Validator.
Context `{TextFormats}.

(** Modelled from the spec: the conversions of the pydantic library to the
    scalar types, in its default mode. A string field takes strings only;
    an integer field also takes a boolean, a float without fractional part
    within the 64-bit range and numeric text; a float field also takes an
    integer, a boolean (as 0.0 or 1.0) and numeric text; a boolean field
    also takes 0 and 1, as an integer or a float, and the texts the
    library reads as booleans; a timestamp field takes date-time text and
    numbers of seconds, but no boolean. *)
Definition coerce_str (v : value) : checked value :=
  match v with
  | VStr _ => Valid v
  | _ => failure "string_type" "Input should be a valid string" v
  end.

Definition coerce_int (v : value) : checked value :=
  match v with
  | VInt _ => Valid v
  | VBool b => Valid (VInt (if b then 1 else 0))
  | VFloat f => VInt <$> float_as_int f v
  | VStr s =>
      of_option (VInt <$> str_as_int s) "int_parsing"
        "Input should be a valid integer, unable to parse string as an integer" v
  | _ => failure "int_type" "Input should be a valid integer" v
  end.

Definition coerce_float (v : value) : checked value :=
  match v with
  | VFloat _ => Valid v
  | VInt n =>
      of_option (VFloat <$> finite (float_of_int n)) "float_type"
        "Input should be a valid number" v
  | VBool b => Valid (VFloat (float_of_int (if b then 1 else 0)))
  | VStr s =>
      of_option (VFloat <$> str_as_float s) "float_parsing"
        "Input should be a valid number, unable to parse string as a number" v
  | _ => failure "float_type" "Input should be a valid number" v
  end.

Definition coerce_bool (v : value) : checked value :=
  match v with
  | VBool _ => Valid v
  | VInt n =>
      if (- 2 ^ 63 <=? n) && (n <? 2 ^ 63)
      then of_option (VBool <$> int_as_bool n) "bool_parsing"
             "Input should be a valid boolean, unable to interpret input" v
      else failure "bool_type" "Input should be a valid boolean" v
  | VFloat f =>
      match float_as_int f v with
      | Valid n =>
          of_option (VBool <$> int_as_bool n) "bool_parsing"
            "Input should be a valid boolean, unable to interpret input" v
      | Invalid _ => failure "bool_type" "Input should be a valid boolean" v
      end
  | VStr s =>
      of_option (VBool <$> str_as_bool s) "bool_parsing"
        "Input should be a valid boolean, unable to interpret input" v
  | _ => failure "bool_type" "Input should be a valid boolean" v
  end.

Definition coerce_datetime (v : value) : checked value :=
  match v with
  | VDatetime _ => Valid v
  | VStr s =>
      of_option (VDatetime <$> str_as_datetime s) "datetime_parsing"
        "Input should be a valid datetime" v
  | VInt n =>
      of_option (VDatetime <$> int_as_datetime n) "datetime_parsing"
        "Input should be a valid datetime" v
  | VFloat f =>
      of_option (VDatetime <$> float_as_datetime f) "datetime_parsing"
        "Input should be a valid datetime" v
  | _ => failure "datetime_type" "Input should be a valid datetime" v
  end.

(** An enumerated string: the value must be one of the literals, as it
    is; nothing is converted. *)
Definition coerce_literal (choices : list string) (v : value) : checked value :=
  match v with
  | VStr s =>
      if bool_decide (s ∈ choices) then Valid v
      else failure "literal_error" "Input should be one of the declared literals" v
  | _ => failure "literal_error" "Input should be one of the declared literals" v
  end.

(** Modelled from the spec: the check of one value against a field's
    declared type inside the pydantic library. A value that cannot be
    converted to the declared type fails; the scalar conversions are
    those of the library's default mode. A union takes the value as it
    is when it already has the type of a member, and otherwise the first
    member that converts it. *)
Fixpoint coerce (t : ftype) (v : value) : checked value :=
  match t with
  | TAny => Valid v
  | TStr => coerce_str v
  | TInt => coerce_int v
  | TFloat => coerce_float v
  | TBool => coerce_bool v
  | TDatetime => coerce_datetime v
  | TNone =>
      match v with
      | VNone => Valid v
      | _ => failure "none_required" "Input should be None" v
      end
  | TLiteral choices => coerce_literal choices v
  | TList item =>
      match v with
      | VList vs => VList <$> check_items (coerce item) 0 vs
      | _ => failure "list_type" "Input should be a valid list" v
      end
  | TDict key val =>
      match v with
      | VDict d =>
          (fun kvs => VDict (list_to_map kvs)) <$>
            check_entries (coerce key) (coerce val) (map_to_list d)
      | _ => failure "dict_type" "Input should be a valid dictionary" v
      end
  | TOptional inner =>
      match v with
      | VNone => Valid VNone
      | _ => coerce inner v
      end
  | TUnion members =>
      if existsb (fun m => has_type m v) members then Valid v
      else
        (fix first_of (ms : list ftype) : checked value :=
           match ms with
           | [] => Invalid []
           | m :: rest =>
               match coerce m v with
               | Valid v' => Valid v'
               | Invalid es =>
                   match first_of rest with
                   | Valid v' => Valid v'
                   | Invalid es' =>
                       Invalid ((at_loc (LKey (type_label m)) <$> es) ++ es')
                   end
               end
           end) members
  end.

(** Modelled from the spec: one declared field against the input mapping.
    A present key is checked against the annotation; an absent one takes
    the declared default; an absent required one is an error located at
    the field, whose input is the mapping itself. *)
Definition validate_field (data : gmap string value) (nf : string * FieldInfo)
    : checked (string * value) :=
  match data !! nf.1 with
  | Some v => pair nf.1 <$> under (LKey nf.1) (coerce (annotation nf.2) v)
  | None =>
      match default nf.2 with
      | Some dv => Valid (nf.1, dv)
      | None =>
          Invalid [{| err_type := "missing"; err_loc := [LKey nf.1];
                      err_msg := "Field required"; err_input := VDict data |}]
      end
  end.

(** All declared fields, in order, with the errors of every field. Keys
    of the mapping that name no field are never read. *)
Fixpoint validate_fields (data : gmap string value) (fields : list (string * FieldInfo))
    : checked (list (string * value)) :=
  match fields with
  | [] => Valid []
  | nf :: rest => collect (validate_field data nf) (validate_fields data rest)
  end.

(** Modelled from the spec: [BaseModel.model_validate], the class method
    of the pydantic library that validation.py and client.py call; the
    library is not part of the repository. Following the contract of the
    validator: a required field absent from the data fails, a present
    value that cannot be converted to the declared type fails, a value
    outside an enumerated field's literal set fails, an absent field
    with a default takes it, unrecognised keys are ignored; on failure
    the error lists every field-level failure with its path, message and
    input. *)
Definition model_validate_fields (m : model) (data : gmap string value)
    : outcome instance :=
  match validate_fields data (model_fields m) with
  | Valid vals => Return {| inst_class := cls_name m; inst_dict := vals |}
  | Invalid errs => Raise (ValidationError (cls_name m) errs)
  end.
End Validator.

(** The interface [validate] relies on: [T = TypeVar('T', bound=BaseModel)],
    a class with a [model_validate] class method that produces its
    instances. *)
Class BaseModel (M I : Type) := model_validate : M -> gmap string value -> outcome I.
#[global] Hint Mode BaseModel ! - : typeclass_instances.

#[global] Instance model_BaseModel `{TextFormats} : BaseModel model instance :=
  model_validate_fields.

(* ===================================================================== *)
(** ** validation.py *)
(* ===================================================================== *)

(** The dict [safe_validate] returns: [{"success": True, "data": validated}]
    or [{"success": False, "error": e}]. *)
Inductive result_dict (I : Type) :=
| SuccessData (data : I)
| FailureError (error : exn).
Arguments SuccessData {I} data.
Arguments FailureError {I} error.

Definition success {I} (r : result_dict I) : bool :=
  match r with
  | SuccessData _ => true
  | FailureError _ => false
  end.

(** The clause [except ValidationError as e: return {"success": False, "error": e}]. *)
Definition except_ValidationError {I} (e : exn) : option (outcome (result_dict I)) :=
  match e with
  | ValidationError _ _ => Some (Return (FailureError e))
  | _ => None
  end.

Module validation.
Section Functions.
Context {M I : Type} `{BaseModel M I}.

Definition validate (model_class : M) (data : gmap string value) : outcome I :=
  model_validate model_class data.

Definition safe_validate (model_class : M) (data : gmap string value)
    : outcome (result_dict I) :=
  try_except
    (validated ← validate model_class data;
     Return (SuccessData validated))
    except_ValidationError.

(** The dict of two closures [create_validator] returns. *)
Record validator := {
  validator_validate : gmap string value -> outcome I;
  validator_safe_validate : gmap string value -> outcome (result_dict I)
}.

Definition create_validator (model_class : M) : validator :=
  {| validator_validate := fun data => validate model_class data;
     validator_safe_validate := fun data => safe_validate model_class data |}.
End Functions.
End validation.

(* ===================================================================== *)
(** ** schemas.py *)
(* ===================================================================== *)

Module schemas.

(** The entries of the dict display assigned to [SCHEMA_REGISTRY]: each
    key with the attribute of [models] it names. *)
Definition registry_display : list (string * string) := [
    ("RetryPolicy", "RetryPolicy");
    ("ErrorDetail", "ErrorDetail");
    ("ErrorEnvelope", "ErrorEnvelope");
    ("ContractVersion", "ContractVersion");
    ("ContractRange", "ContractRange");
    ("JobMetadata", "JobMetadata");
    ("JobPayload", "JobPayload");
    ("JobRequest", "JobRequest");
    ("JobResult", "JobResult");
    ("JobResponse", "JobResponse");
    ("RunnerCapability", "RunnerCapability");
    ("RunnerMetadata", "RunnerMetadata");
    ("RunnerRegistrationRequest", "RunnerRegistrationRequest");
    ("RunnerRegistrationResponse", "RunnerRegistrationResponse");
    ("RunnerHeartbeat", "RunnerHeartbeat");
    ("ModuleManifest", "ModuleManifest");
    ("RunnerExecutionRequest", "RunnerExecutionRequest");
    ("RunnerExecutionResponse", "RunnerExecutionResponse");
    ("TruthAssertion", "TruthAssertion");
    ("TruthQuery", "TruthQuery");
    ("TruthQueryResult", "TruthQueryResult");
    ("TruthSubscription", "TruthSubscription");
    ("TruthCoreRequest", "TruthCoreRequest");
    ("TruthCoreResponse", "TruthCoreResponse");
    ("HealthCheck", "HealthCheck");
    ("ServiceMetadata", "ServiceMetadata");
    ("PaginatedRequest", "PaginatedRequest");
    ("PaginatedResponse", "PaginatedResponse");
    ("ApiRequest", "ApiRequest");
    ("ApiResponse", "ApiResponse");
    ("CapabilityRegistry", "CapabilityRegistry");
    ("RegisteredRunner", "RegisteredRunner");
    ("ConnectorConfig", "ConnectorConfig");
    ("ConnectorInstance", "ConnectorInstance");
    ("RegistryQuery", "RegistryQuery");
    ("RegistryDiff", "RegistryDiff");
    ("MarketplaceIndex", "MarketplaceIndex");
    ("MarketplaceRunner", "MarketplaceRunner");
    ("MarketplaceConnector", "MarketplaceConnector");
    ("MarketplaceQuery", "MarketplaceQuery");
    ("MarketplaceQueryResult", "MarketplaceQueryResult");
    ("MarketplaceTrustSignals", "MarketplaceTrustSignals")
].

(** The module-level assignment: the display is evaluated entry by entry,
    and an attribute that [models] lacks raises. *)
Definition SCHEMA_REGISTRY (models_globals : gmap string global)
    : outcome (gmap string model) :=
  kvs ← mapM_outcome
          (fun ka => m ← getattr_module "models" models_globals ka.2; Return (ka.1, m))
          registry_display;
  Return (foldl (fun d kv => <[kv.1 := kv.2]> d) ∅ kvs).

(** [SCHEMA_REGISTRY[name]] *)
Definition subscript (registry : gmap string model) (name : string) : outcome model :=
  match registry !! name with
  | Some m => Return m
  | None => Raise (KeyError name)
  end.

Definition get_schema (registry : gmap string model) (name : string) : outcome model :=
  if bool_decide (registry !! name = None)
  then Raise (KeyError ("Unknown schema: " +:+ name))
  else subscript registry name.

Definition list_schemas (registry : gmap string model) : list string :=
  (map_to_list registry).*1.

End schemas.

(* ===================================================================== *)
(** ** __init__.py: importing the package *)
(* ===================================================================== *)

(** The globals of models.py once its import statements have run. *)
Definition models_imports : gmap string global :=
  foldl (fun g s => match s with
                    | FromImport m names => bind_imports g m names
                    | ClassDef _ _ _ => g
                    end)
        (module_globals "controlplane_sdk.models") models.imports.

(** A class statement run on its own, right after the imports. *)
Definition define (s : stmt) : outcome model :=
  match s with
  | ClassDef cname bases body => exec_classdef models_imports cname bases body
  | FromImport _ _ => Raise (TypeError "not a class statement")
  end.

(** Running models.py from the top. *)
Definition import_models : outcome (gmap string global) :=
  exec_module (module_globals "controlplane_sdk.models") models.source.

(** What the package holds once imported. *)
Record package := {
  pkg_models : gmap string global;
  pkg_registry : gmap string model;
  __version__ : string
}.

(** The body of __init__.py: [from .models import *], then client.py
    (which starts with [from .models import ContractVersion]), then
    validation.py, then schemas.py (which builds [SCHEMA_REGISTRY]). *)
Definition import_package : outcome package :=
  g ← import_models;
  _ ← getattr_module "models" g "ContractVersion";
  registry ← schemas.SCHEMA_REGISTRY g;
  Return {| pkg_models := g; pkg_registry := registry; __version__ := "1.0.0" |}.

(** [import controlplane_sdk.schemas]: the package is imported first, and
    the registry is the one it built. *)
Definition import_schemas : outcome (gmap string model) :=
  pkg ← import_package;
  Return (pkg_registry pkg).

(* ===================================================================== *)
(** ** client.py *)
(* ===================================================================== *)

Module client.

Record ClientConfig := {
  base_url : string;
  api_key : option string;
  timeout : spec_float
}.

(** [timeout: float = 30.0] *)
Definition default_timeout : spec_float := float_of_int 30.

(** [ClientConfig(base_url)], with the defaults of the dataclass. *)
Definition ClientConfig_of (url : string) : ClientConfig :=
  {| base_url := url; api_key := None; timeout := default_timeout |}.

(** An instance of [models.ContractVersion]. *)
Record ContractVersion := {
  major : Z;
  minor : Z;
  patch : Z;
  preRelease : option string
}.

(** The [httpx.Client] the wrapper owns. *)
Record httpx_Client := {
  client_base_url : string;
  client_timeout : spec_float;
  client_headers : gmap string string
}.

Record ControlPlaneClient := {
  config : ClientConfig;
  contract_version : ContractVersion;
  _client : httpx_Client
}.

Definition _serialize_version (version : ContractVersion) : string :=
  str_of_int (major version) +:+ "." +:+ str_of_int (minor version)
    +:+ "." +:+ str_of_int (patch version).

(** The body of [_default_headers(self)], as a function of the two
    attributes it reads, [self.config] and [self.contract_version];
    [__init__] calls it before [self._client] exists. *)
Definition _default_headers (cfg : ClientConfig) (version : ContractVersion)
    : gmap string string :=
  let headers : gmap string string :=
    <["X-Contract-Version" := _serialize_version version]>
      (<["Content-Type" := "application/json"]> ∅) in
  match api_key cfg with
  | Some key =>
      if truthy_str key
      then <["Authorization" := "Bearer " +:+ key]> headers
      else headers
  | None => headers
  end.

Definition __init__ (cfg : ClientConfig) : ControlPlaneClient :=
  let version := {| major := 1; minor := 0; patch := 0; preRelease := None |} in
  {| config := cfg;
     contract_version := version;
     _client := {| client_base_url := base_url cfg;
                   client_timeout := timeout cfg;
                   client_headers := _default_headers cfg version |} |}.

(** [self._default_headers()] on a constructed client. *)
Definition default_headers (self : ControlPlaneClient) : gmap string string :=
  _default_headers (config self) (contract_version self).

Definition get_contract_version (self : ControlPlaneClient) : ContractVersion :=
  contract_version self.

Section Validation.
Context {M I : Type} `{BaseModel M I}.

Definition validate (self : ControlPlaneClient) (model_class : M)
    (data : gmap string value) : outcome I :=
  model_validate model_class data.

Definition safe_validate (self : ControlPlaneClient) (model_class : M)
    (data : gmap string value) : outcome (result_dict I) :=
  try_except
    (validated ← validate self model_class data;
     Return (SuccessData validated))
    except_ValidationError.
End Validation.

(** A response of the transport: the status line and the body. *)
Record Response := {
  status_code : Z;
  content : string
}.

(** One call of [self._client.request(method, path, **kwargs)]. *)
Record http_call := {
  call_client : httpx_Client;
  call_method : string;
  call_path : string;
  call_kwargs : gmap string value
}.

(** Modelled from the spec: [response.is_success] of the httpx library, a
    2xx status. *)
Definition is_success (r : Response) : bool :=
  (200 <=? status_code r) && (status_code r <=? 299).

(** Modelled from the spec: [response.raise_for_status()] of the httpx
    library, which raises on a status that is not a success. *)
Definition raise_for_status (r : Response) : outcome Response :=
  if is_success r then Return r else Raise (HTTPStatusError (status_code r)).

Section Transport.
(** The network and the JSON decoder are outside the package: [send]
    answers a call given the calls made before it, [json_loads] decodes a
    body. *)
Variable send : list http_call -> http_call -> outcome Response.
Variable json_loads : string -> outcome value.

(** [request], threading the list of calls made on the transport. *)
Definition request (self : ControlPlaneClient) (method path : string)
    (kwargs : gmap string value) (sent : list http_call) : outcome value * list http_call :=
  let c := {| call_client := _client self; call_method := method;
              call_path := path; call_kwargs := kwargs |} in
  (response ← send sent c;
   _ ← raise_for_status response;
   json_loads (content response),
   sent ++ [c]).
End Transport.

(** The transport the wrapper owns, as the wrapper's methods change it:
    the calls made on it and whether it has been closed. *)
Record transport := {
  calls : list http_call;
  is_closed : bool
}.

(** Modelled from the spec: [httpx.Client.close()], which releases the
    connection; a closed client stays closed. *)
Definition httpx_close (t : transport) : transport :=
  {| calls := calls t; is_closed := true |}.

(** [close(self)]: [self._client.close()]. *)
Definition close (self : ControlPlaneClient) (t : transport) : transport :=
  httpx_close t.

(** [__enter__(self)]: [return self]. *)
Definition __enter__ (self : ControlPlaneClient) : ControlPlaneClient := self.

(** [__exit__(self, exc_type, exc_val, exc_tb)]: [self.close()], and the
    implicit [return None]. *)
Definition __exit__ (self : ControlPlaneClient) (exc : option exn) (t : transport)
    : value * transport :=
  (VNone, close self t).

End client.

(* ===================================================================== *)
(** * Properties *)
(* ===================================================================== *)

(** The text conversions switched off: the instance used where a concrete
    input is run. *)
Definition no_text_conversion : TextFormats :=
  {| str_as_int := fun _ => None;
     str_as_float := fun _ => None;
     str_as_bool := fun _ => None;
     str_as_datetime := fun _ => None;
     int_as_datetime := fun _ => None;
     float_as_datetime := fun _ => None |}.

(** The identifying part of a field-level failure: its kind, its path and
    its message. *)
Definition err_key (e : error_detail) : string * list loc_item * string :=
  (err_type e, err_loc e, err_msg e).

(** Two checks agree when they give the same data, or the same failures up
    to the input each failure quotes. *)
Definition agree {A} (c c' : checked A) : Prop :=
  match c, c' with
  | Valid a, Valid a' => a = a'
  | Invalid es, Invalid es' => err_key <$> es = err_key <$> es'
  | _, _ => False
  end.

(** The same for the result of [validate]. *)
Definition same_result (r r' : outcome instance) : Prop :=
  match r, r' with
  | Return i, Return i' => i = i'
  | Raise (ValidationError t es), Raise (ValidationError t' es') =>
      t = t' /\ err_key <$> es = err_key <$> es'
  | _, _ => False
  end.

(** The names of the declared fields and the mapping restricted to them. *)
Definition field_names (cls : model) : list string := (model_fields cls).*1.

Definition restrict (cls : model) (D : gmap string value) : gmap string value :=
  filter (fun kv => kv.1 ∈ field_names cls) D.

(** The mapping of the concrete scenarios of the specification. *)
Definition job_payload : gmap string value :=
  <["data" := VDict ∅]> (<["type" := VStr "x"]> ∅).

Definition job_metadata : gmap string value :=
  <["createdAt" := VStr "2024-01-01T00:00:00Z"]> (<["source" := VStr "api"]> ∅).

Definition job_request_data : gmap string value :=
  <["metadata" := VDict job_metadata]>
    (<["payload" := VDict job_payload]>
      (<["type" := VStr "ingest"]> (<["id" := VStr "j1"]> ∅))).

Definition job_result_data : gmap string value :=
  <["metadata" := VDict ∅]> (<["success" := VInt 1]> ∅).

Definition job_status_literals : list string :=
  ["pending"; "queued"; "running"; "completed"; "failed"; "cancelled"; "retrying"].

(** [get_schema(name)] then [validate], from a fresh interpreter. *)
Definition lookup_and_validate `{TextFormats} (name : string) (data : gmap string value)
    : outcome instance :=
  registry ← import_schemas;
  model_class ← schemas.get_schema registry name;
  validation.validate model_class data.

(** The classes that three class statements of models.py build when run on
    their own. *)
Definition empty_class : model :=
  {| cls_name := ""; model_fields := []; model_config := ∅ |}.

Definition class_of (s : stmt) : model :=
  match define s with
  | Return m => m
  | Raise _ => empty_class
  end.

Definition JobRequest_class : model := Eval vm_compute in class_of models.JobRequest.
Definition JobResult_class : model := Eval vm_compute in class_of models.JobResult.
Definition JobResponse_class : model := Eval vm_compute in class_of models.JobResponse.

(** The right-hand side a class statement gives to a field. *)
Definition rhs_of (s : stmt) (x : string) : option expr :=
  match s with
  | ClassDef _ _ body =>
      head (omap (fun c => match c with
                           | AnnAssign y _ e => if String.eqb x y then Some e else None
                           | _ => None
                           end) body)
  | FromImport _ _ => None
  end.

(** models.py with the identifiers [false] and [true] replaced by the
    keywords [False] and [True]. *)
Fixpoint repair (e : expr) : expr :=
  match e with
  | EName "false" => EFalse
  | EName "true" => ETrue
  | EList es => EList (repair <$> es)
  | EDict kes => EDict ((fun ke => (ke.1, repair ke.2)) <$> kes)
  | ECall f kes => ECall f ((fun ke => (ke.1, repair ke.2)) <$> kes)
  | _ => e
  end.

Definition repair_stmt (s : stmt) : stmt :=
  match s with
  | ClassDef cname bases body =>
      ClassDef cname bases
        ((fun c => match c with
                   | Assign x e => Assign x (repair e)
                   | AnnAssign x t e => AnnAssign x t (repair e)
                   | _ => c
                   end) <$> body)
  | FromImport _ _ => s
  end.

(** The fields a class declares without a default, and the list its
    [json_schema_extra] gives under [required]. *)
Definition required_fields (cls : model) : list string :=
  omap (fun nf => match default nf.2 with
                  | None => Some nf.1
                  | Some _ => None
                  end) (model_fields cls).

Definition schema_required (cls : model) : option (list string) :=
  match model_config cls !! "json_schema_extra" with
  | Some (VDict extra) =>
      match extra !! "required" with
      | Some (VList names) =>
          Some (omap (fun v => match v with VStr s => Some s | _ => None end) names)
      | _ => None
      end
  | _ => None
  end.

(** Whether a class statement, once repaired, defines a class whose
    [required] list, when it gives one, names exactly those fields. *)
Definition required_consistent (s : stmt) : bool :=
  match define (repair_stmt s) with
  | Return cls =>
      match schema_required cls with
      | Some names => bool_decide (names = required_fields cls)
      | None => true
      end
  | Raise _ => false
  end.

(** The import of the registry from the repaired module, and the lookup
    of a name in it. *)
Definition import_repaired_schemas : outcome (gmap string model) :=
  g ← exec_module (module_globals "controlplane_sdk.models")
        (repair_stmt <$> models.source);
  schemas.SCHEMA_REGISTRY g.

Definition repaired_get_schema (name : string) : outcome model :=
  registry ← import_repaired_schemas;
  schemas.get_schema registry name.

(** The class statements of models.py that raise when run on their own. *)
Definition undefined_classes : list string :=
  omap (fun s => match s, define s with
                 | ClassDef cname _ _, Raise _ => Some cname
                 | _, _ => None
                 end) models.source.

(** The headers without a credential. *)
Definition base_headers (version : client.ContractVersion) : gmap string string :=
  <["X-Contract-Version" := client._serialize_version version]>
    (<["Content-Type" := "application/json"]> ∅).

(** How often a header name occurs among the items of a header dict. *)
Definition occurrences (name : string) (h : gmap string string) : nat :=
  length (filter (fun kv => kv.1 = name) (map_to_list h)).

(** A value that is not one of the literals of an enumerated field. *)
Definition outside (choices : list string) (v : value) : Prop :=
  forall s, v = VStr s -> s ∉ choices.

(** A class whose [model_validate] raises an exception that is not a
    validation error. *)
Definition raising_model_validate : BaseModel unit unit :=
  fun _ _ => Raise (TypeError "boom").

(** A string without a full stop. *)
Fixpoint no_dot (s : string) : bool :=
  match s with
  | EmptyString => true
  | String c rest => negb (Ascii.eqb c ".") && no_dot rest
  end.

(** The names a class statement annotates without assigning a value, in
    order. *)
Definition annotated_without_value (s : stmt) : list string :=
  match s with
  | ClassDef _ _ body =>
      omap (fun c => match c with Ann x _ => Some x | _ => None end) body
  | FromImport _ _ => []
  end.

(** The list a class statement writes under
    [model_config = ConfigDict(json_schema_extra={"required": [...]})]. *)
Definition required_display (s : stmt) : option (list expr) :=
  match s with
  | ClassDef _ _ body =>
      head (omap (fun c =>
        match c with
        | Assign "model_config" (ECall "ConfigDict" kws) =>
            match (list_to_map kws : gmap string expr) !! "json_schema_extra" with
            | Some (EDict items) =>
                match (list_to_map items : gmap string expr) !! "required" with
                | Some (EList names) => Some names
                | _ => None
                end
            | _ => None
            end
        | _ => None
        end) body)
  | FromImport _ _ => None
  end.

(** The strings of a list of string literals. *)
Fixpoint strings_of (es : list expr) : option (list string) :=
  match es with
  | [] => Some []
  | EStr s :: rest => cons s <$> strings_of rest
  | _ => None
  end.

(** Whether the [required] list of a class statement, when it writes one,
    names the fields annotated without a value, and whether these are the
    required fields of the class it defines, when it defines one. *)
Definition required_list_matches (s : stmt) : bool :=
  match required_display s with
  | Some names => bool_decide (strings_of names = Some (annotated_without_value s))
  | None => true
  end &&
  match define s with
  | Return cls => bool_decide (required_fields cls = annotated_without_value s)
  | Raise _ => true
  end.

(** Whether every declared default of a class converts to the type of its
    field. *)
Definition defaults_fit `{TextFormats} (cls : model) : bool :=
  forallb (fun nf => match default nf.2 with
                     | None => true
                     | Some dv => match coerce (annotation nf.2) dv with
                                  | Valid _ => true
                                  | Invalid _ => false
                                  end
                     end) (model_fields cls).

(** The same for the class a statement defines, as written and once
    repaired. *)
Definition statement_defaults_fit `{TextFormats} (s : stmt) : bool :=
  match define s with
  | Return cls => defaults_fit cls
  | Raise _ => true
  end &&
  match define (repair_stmt s) with
  | Return cls => defaults_fit cls
  | Raise _ => false
  end.

(** The globals of the repaired models.py. *)
Definition repaired_globals : gmap string global :=
  match exec_module (module_globals "controlplane_sdk.models")
          (repair_stmt <$> models.source) with
  | Return g => g
  | Raise _ => ∅
  end.

(** Import a models module with the given body, build the registry from
    it, and look a name up. *)
Definition get_schema_from (body : list stmt) (name : string) : outcome model :=
  g ← exec_module (module_globals "controlplane_sdk.models") body;
  registry ← schemas.SCHEMA_REGISTRY g;
  schemas.get_schema registry name.

(** Every class bound in the globals is bound under its own name. *)
Definition classes_named (g : gmap string global) : Prop :=
  forall n m, g !! n = Some (GClass m) -> cls_name m = n.

(** The instance a mapping gives when every value is taken as it is: each
    declared field with the value of the mapping, or its default. *)
Definition populate (cls : model) (D : gmap string value) : list (string * value) :=
  omap (fun nf => match D !! nf.1 with
                  | Some v => Some (nf.1, v)
                  | None => pair nf.1 <$> default nf.2
                  end) (model_fields cls).

(** Modelled from the spec: the kinds of value that the validator of the
    pydantic library, in its default mode, converts to a declared type
    (the conversion table of the library): text for a string; a number, a
    boolean or text for an integer, a float or a boolean; a timestamp,
    text or a number for a timestamp; one of the literals for an
    enumerated string; a list for a list and a mapping for a mapping,
    item by item. A value of no such kind is never accepted. *)
Fixpoint convertible (t : ftype) (v : value) : bool :=
  match t with
  | TAny => true
  | TStr => match v with VStr _ => true | _ => false end
  | TInt | TFloat | TBool =>
      match v with VInt _ | VBool _ | VFloat _ | VStr _ => true | _ => false end
  | TDatetime =>
      match v with VDatetime _ | VStr _ | VInt _ | VFloat _ => true | _ => false end
  | TNone => match v with VNone => true | _ => false end
  | TLiteral choices => match v with VStr s => bool_decide (s ∈ choices) | _ => false end
  | TList item => match v with VList vs => forallb (convertible item) vs | _ => false end
  | TDict key val =>
      match v with
      | VDict d =>
          forallb (fun kv => convertible key (VStr kv.1) && convertible val kv.2)
                  (map_to_list d)
      | _ => false
      end
  | TOptional inner => match v with VNone => true | _ => convertible inner v end
  | TUnion members => existsb (fun m => convertible m v) members
  end.

(** The annotations whose values the embedding represents: a mapping type
    is keyed by strings, as the keys of a [VDict] are, and a union has at
    least one member. *)
Fixpoint representable (t : ftype) : bool :=
  match t with
  | TList item => representable item
  | TDict key val =>
      match key with TStr | TAny | TLiteral _ => true | _ => false end && representable val
  | TOptional inner => representable inner
  | TUnion members =>
      match members with [] => false | _ => true end && forallb representable members
  | _ => true
  end.

(** Whether a class statement, once repaired, defines a class all of whose
    fields have such an annotation. *)
Definition fields_representable (s : stmt) : bool :=
  match define (repair_stmt s) with
  | Return cls => forallb (fun nf => representable (annotation nf.2)) (model_fields cls)
  | Raise _ => false
  end.

(** Whether a decoded body is a mapping, that is, the body was a JSON
    object. *)
Definition is_mapping (v : value) : bool :=
  match v with
  | VDict _ => true
  | _ => false
  end.

(** The class attributes read in the examples: every class provides
    [__class__], [model_config], [model_fields] and [model_validate], each
    held as a reference to the named object. *)
Definition named_class_attributes : ClassAttributes := fun cls attr =>
  if bool_decide (attr ∈ ["__class__"; "model_config"; "model_fields"; "model_validate"])
  then Some (VObject (cls +:+ "." +:+ attr))
  else None.

(** The job request of the scenarios with a key that names no field, and
    the instance it validates to. *)
Definition traced_request_data : gmap string value :=
  <["traceId" := VStr "t-1"]> job_request_data.

Definition traced_request : instance :=
  Eval vm_compute in
    {| inst_class := "JobRequest";
       inst_dict := populate JobRequest_class traced_request_data |}.

(** A version whose three numbers the f-string of [_serialize_version]
    can write. *)
Definition version_within_str_digits (v : client.ContractVersion) : Prop :=
  within_str_digits (client.major v) /\ within_str_digits (client.minor v) /\
  within_str_digits (client.patch v).

(* --------------------------------------------------------------------- *)
(** ** Results and exception handling *)
(* --------------------------------------------------------------------- *)

Lemma bind_Return {A B} (a : A) (f : A -> outcome B) : (Return a ≫= f) = f a.
Proof. reflexivity. Qed.

Lemma bind_Raise {A B} (e : exn) (f : A -> outcome B) : (Raise e ≫= f) = Raise e.
Proof. reflexivity. Qed.

Lemma raises_not_returns {A} (m : outcome A) : raises m <-> ~ returns m.
Proof.
  split.
  - intros [e ->] [a Ha]. discriminate.
  - intros Hn. destruct m as [a|e].
    + exfalso. apply Hn. by exists a.
    + by exists e.
Qed.

(** The validator signals failure by [ValidationError] and by nothing else. *)
Lemma model_validate_fields_raises `{TextFormats} (m : model) (d : gmap string value) e :
  model_validate_fields m d = Raise e ->
  exists errs, e = ValidationError (cls_name m) errs.
Proof.
  unfold model_validate_fields.
  destruct (validate_fields d (model_fields m)) as [vals|errs]; intros Heq.
  - discriminate.
  - injection Heq as <-. by exists errs.
Qed.

Section SafeValidate.
Context {M I : Type} `{BaseModel M I}.

Lemma safe_validate_Return (mc : M) d (i : I) :
  validation.validate mc d = Return i ->
  validation.safe_validate mc d = Return (SuccessData i).
Proof. unfold validation.safe_validate. by intros ->. Qed.

Lemma safe_validate_ValidationError (mc : M) d t es :
  validation.validate mc d = Raise (ValidationError t es) ->
  validation.safe_validate mc d = Return (FailureError (ValidationError t es)).
Proof. unfold validation.safe_validate. by intros ->. Qed.

(** Any other exception passes through the [except] clause. *)
Lemma safe_validate_propagates (mc : M) d e :
  validation.validate mc d = Raise e ->
  except_ValidationError (I:=I) e = None ->
  validation.safe_validate mc d = Raise e.
Proof. unfold validation.safe_validate. intros -> He. cbn. by rewrite He. Qed.

Lemma client_validate_unfold (self : client.ControlPlaneClient) (mc : M) d :
  client.validate self mc d = validation.validate mc d.
Proof. reflexivity. Qed.
End SafeValidate.

(** C1. [safe_validate] never raises: for every model class and every
    mapping it returns a tagged result, [SuccessData] holding the instance
    [validate] returns or [FailureError] holding the [ValidationError]
    [validate] raises, and its success flag is false exactly when
    [validate] fails on the same input. *)
Theorem safe_validate_never_raises `{TextFormats} (M : model) (d : gmap string value) :
  exists r : result_dict instance,
    validation.safe_validate M d = Return r /\
    (success r = false <-> raises (validation.validate M d)) /\
    match r with
    | SuccessData i => validation.validate M d = Return i
    | FailureError e =>
        validation.validate M d = Raise e /\ exists t es, e = ValidationError t es
    end.
Proof.
  destruct (validation.validate M d) as [i|e] eqn:Hv.
  - exists (SuccessData i). split; [by apply safe_validate_Return|].
    split; [|done]. split; [done|]. intros [e He]. discriminate.
  - destruct (model_validate_fields_raises M d e Hv) as [es ->].
    exists (FailureError (ValidationError (cls_name M) es)).
    split; [by apply safe_validate_ValidationError|].
    split; [|eauto]. split; [|done]. intros _. by eexists.
Qed.

(** C10. The methods [validate] and [safe_validate] of the client return
    what the functions of validation.py return, for every class with a
    [model_validate] method and every mapping. *)
Theorem client_validation_equals_module {M I : Type} `{BaseModel M I}
    (self : client.ControlPlaneClient) (model_class : M) (d : gmap string value) :
  client.validate self model_class d = validation.validate model_class d /\
  client.safe_validate self model_class d = validation.safe_validate model_class d.
Proof.
  split; [reflexivity|].
  unfold client.safe_validate, validation.safe_validate.
  by rewrite client_validate_unfold.
Qed.

(* --------------------------------------------------------------------- *)
(** ** The schema registry *)
(* --------------------------------------------------------------------- *)

Lemma elem_of_list_schemas (registry : gmap string model) (name : string) :
  name ∈ schemas.list_schemas registry <-> is_Some (registry !! name).
Proof.
  unfold schemas.list_schemas. rewrite list_elem_of_fmap. split.
  - intros [[k m] [-> Hin]]. apply elem_of_map_to_list in Hin. by exists m.
  - intros [m Hm]. exists (name, m). split; [done|]. by apply elem_of_map_to_list.
Qed.

Lemma get_schema_registered (registry : gmap string model) name m :
  registry !! name = Some m -> schemas.get_schema registry name = Return m.
Proof.
  intros Hm. unfold schemas.get_schema, schemas.subscript.
  rewrite bool_decide_eq_false_2; [by rewrite Hm|]. by rewrite Hm.
Qed.

Lemma get_schema_unknown (registry : gmap string model) name :
  registry !! name = None ->
  schemas.get_schema registry name = Raise (KeyError ("Unknown schema: " +:+ name)).
Proof.
  intros Hm. unfold schemas.get_schema. by rewrite bool_decide_eq_true_2.
Qed.

(** C5. For every name [list_schemas] returns, [get_schema] returns the
    class registered under it; for every other string it raises the
    schema-not-found error, whose message quotes the name and suggests
    nothing. The lookup is by exact match. *)
Theorem registry_round_trip (registry : gmap string model) (name : string) :
  (name ∈ schemas.list_schemas registry ->
     exists m, registry !! name = Some m /\
               schemas.get_schema registry name = Return m) /\
  (name ∉ schemas.list_schemas registry ->
     schemas.get_schema registry name = Raise (KeyError ("Unknown schema: " +:+ name))).
Proof.
  split.
  - intros [m Hm]%elem_of_list_schemas. exists m. split; [done|].
    by apply get_schema_registered.
  - intros Hn. apply get_schema_unknown.
    destruct (registry !! name) as [m|] eqn:Hm; [|done].
    exfalso. apply Hn, elem_of_list_schemas. by exists m.
Qed.

Lemma registry_round_trip_witness :
  let registry : gmap string model := {["JobRequest" := JobRequest_class]} in
  (exists m, registry !! "JobRequest" = Some m /\
             schemas.get_schema registry "JobRequest" = Return m) /\
  schemas.get_schema registry "jobrequest" = Raise (KeyError "Unknown schema: jobrequest").
Proof.
  intros registry. split.
  - apply (proj1 (registry_round_trip registry "JobRequest")).
    apply elem_of_list_schemas. by exists JobRequest_class.
  - apply (proj2 (registry_round_trip registry "jobrequest")).
    rewrite elem_of_list_schemas. intros [m Hm]. by vm_compute in Hm.
Defined.

(* --------------------------------------------------------------------- *)
(** ** The client wrapper *)
(* --------------------------------------------------------------------- *)

Lemma serialize_version_1_0_0 :
  client._serialize_version (client.contract_version (client.__init__
    {| client.base_url := ""; client.api_key := None;
       client.timeout := client.default_timeout |})) = "1.0.0".
Proof. reflexivity. Qed.

Lemma default_headers_init (cfg : client.ClientConfig) :
  client.default_headers (client.__init__ cfg) =
  client._default_headers cfg
    {| client.major := 1; client.minor := 0; client.patch := 0;
       client.preRelease := None |}.
Proof. reflexivity. Qed.

Lemma default_headers_cases (cfg : client.ClientConfig) version :
  client._default_headers cfg version =
  match client.api_key cfg with
  | Some key =>
      if truthy_str key then <["Authorization" := "Bearer " +:+ key]> (base_headers version)
      else base_headers version
  | None => base_headers version
  end.
Proof. reflexivity. Qed.

Lemma truthy_str_nonempty (s : string) : truthy_str s = true <-> s ≠ "".
Proof.
  unfold truthy_str. destruct (String.eqb_spec s ""); split; intros; try done.
Qed.

Lemma base_headers_no_authorization version :
  base_headers version !! "Authorization" = None.
Proof. unfold base_headers. by simplify_map_eq. Qed.

Lemma occurrences_base_headers version :
  occurrences "Authorization" (base_headers version) = 0%nat.
Proof. reflexivity. Qed.

Lemma occurrences_authorization version v :
  occurrences "Authorization" (<["Authorization" := v]> (base_headers version)) = 1%nat.
Proof. reflexivity. Qed.

(** C6. The headers are a function of the configuration. They always hold
    the content-type marker and the contract version written
    [major.minor.patch]; with no credential, or an empty one, there is no
    authorization header; with a non-empty one there is exactly one,
    [Authorization: Bearer <token>]. *)
Theorem default_headers_spec (cfg : client.ClientConfig) :
  let h := client.default_headers (client.__init__ cfg) in
  h !! "Content-Type" = Some "application/json" /\
  h !! "X-Contract-Version" = Some "1.0.0" /\
  (forall v, client._default_headers cfg v !! "X-Contract-Version" =
     Some (str_of_int (client.major v) +:+ "." +:+ str_of_int (client.minor v)
             +:+ "." +:+ str_of_int (client.patch v))) /\
  (client.api_key cfg = None \/ client.api_key cfg = Some "" ->
     h !! "Authorization" = None /\ occurrences "Authorization" h = 0%nat) /\
  (forall token, client.api_key cfg = Some token -> token ≠ "" ->
     h !! "Authorization" = Some ("Bearer " +:+ token) /\
     occurrences "Authorization" h = 1%nat) /\
  (forall cfg', client.api_key cfg' = client.api_key cfg ->
     client.default_headers (client.__init__ cfg') = h).
Proof.
  cbn zeta. rewrite default_headers_init.
  set (v0 := {| client.major := 1 |}).
  assert (Hbase : forall v, client._default_headers cfg v !! "X-Contract-Version"
                            = Some (client._serialize_version v)).
  { intros v. rewrite default_headers_cases.
    destruct (client.api_key cfg) as [key|]; [destruct (truthy_str key)|];
      unfold base_headers; by simplify_map_eq. }
  split; [|split; [|split; [|split; [|split]]]].
  - rewrite default_headers_cases.
    destruct (client.api_key cfg) as [key|]; [destruct (truthy_str key)|];
      unfold base_headers; by simplify_map_eq.
  - by rewrite Hbase.
  - intros v. by rewrite Hbase.
  - rewrite default_headers_cases. intros [-> | ->]; cbn;
      (split; [apply base_headers_no_authorization|apply occurrences_base_headers]).
  - intros token Hkey Hne%truthy_str_nonempty.
    rewrite default_headers_cases, Hkey, Hne.
    split; [by simplify_map_eq|apply occurrences_authorization].
  - intros cfg' Hkey. rewrite default_headers_init.
    by rewrite !default_headers_cases, Hkey.
Qed.

Lemma default_headers_spec_witness :
  let cfg := {| client.base_url := "https://cp.example"; client.api_key := Some "s3cret";
                client.timeout := client.default_timeout |} in
  client.default_headers (client.__init__ cfg) !! "Authorization" = Some "Bearer s3cret" /\
  occurrences "Authorization" (client.default_headers (client.__init__ cfg)) = 1%nat.
Proof.
  intros cfg.
  destruct (default_headers_spec cfg) as (_ & _ & _ & _ & Htoken & _).
  apply Htoken; [reflexivity|discriminate].
Defined.

Section Request.
Variable send : list client.http_call -> client.http_call -> outcome client.Response.
Variable json_loads : string -> outcome value.

Lemma request_result self method path kwargs sent :
  (client.request send json_loads self method path kwargs sent).1 =
  (response ← send sent {| client.call_client := client._client self;
                           client.call_method := method;
                           client.call_path := path;
                           client.call_kwargs := kwargs |};
   _ ← client.raise_for_status response;
   json_loads (client.content response)).
Proof. reflexivity. Qed.
End Request.

(** C9, as stated, fails: on a success status [request] returns whatever
    the decoder makes of the body, which need not be a mapping. A 200
    whose body is the JSON array [[1, 2]] gives a list, and a 204, whose
    body is empty and so is no JSON text, raises the decoder's error
    although the status is a success. *)
Lemma request_body_not_a_mapping_counterexample :
  let self := client.__init__ {| client.base_url := "https://cp.example";
                                 client.api_key := None;
                                 client.timeout := client.default_timeout |} in
  let answer := fun (status : Z) (body : string)
                    (_ : list client.http_call) (_ : client.http_call) =>
                  Return {| client.status_code := status; client.content := body |} in
  (forall json_loads : string -> outcome value,
     json_loads "[1, 2]" = Return (VList [VInt 1; VInt 2]) ->
     (client.request (answer 200 "[1, 2]") json_loads self "GET" "/jobs" ∅ []).1
       = Return (VList [VInt 1; VInt 2]) /\
     is_mapping (VList [VInt 1; VInt 2]) = false) /\
  (forall (json_loads : string -> outcome value) msg,
     json_loads "" = Raise (JSONDecodeError msg) ->
     client.is_success {| client.status_code := 204; client.content := "" |} = true /\
     (client.request (answer 204 "") json_loads self "DELETE" "/jobs/j1" ∅ []).1
       = Raise (JSONDecodeError msg)).
Proof.
  intros self answer. split.
  - intros json_loads Hbody. split; [|reflexivity].
    rewrite request_result. cbn. exact Hbody.
  - intros json_loads msg Hbody. split; [reflexivity|].
    rewrite request_result. cbn. exact Hbody.
Qed.

(** C9, amended. [request] makes exactly one call on the transport,
    whatever the answer (no retry). A fault of the transport is raised as
    it is; a response whose status is not a success raises the status
    error; for any other response the result is what the decoder makes of
    the body, checked against no schema: the mapping of a JSON object, the
    value of any other JSON text as it is (then the result is no
    mapping), and the decoder's error for a body that does not decode. *)
Theorem request_spec (send : list client.http_call -> client.http_call -> outcome client.Response)
    (json_loads : string -> outcome value)
    (self : client.ControlPlaneClient) (method path : string)
    (kwargs : gmap string value) (sent : list client.http_call) :
  let c := {| client.call_client := client._client self; client.call_method := method;
              client.call_path := path; client.call_kwargs := kwargs |} in
  let result := client.request send json_loads self method path kwargs sent in
  result.2 = sent ++ [c] /\
  (forall e, send sent c = Raise e -> result.1 = Raise e) /\
  (forall response, send sent c = Return response ->
     client.is_success response = false ->
     result.1 = Raise (HTTPStatusError (client.status_code response))) /\
  (forall response, send sent c = Return response ->
     client.is_success response = true ->
     result.1 = json_loads (client.content response) /\
     (forall d, json_loads (client.content response) = Return (VDict d) ->
        result.1 = Return (VDict d)) /\
     (forall v, json_loads (client.content response) = Return v ->
        is_mapping v = false ->
        result.1 = Return v /\ forall d, result.1 ≠ Return (VDict d)) /\
     (forall e, json_loads (client.content response) = Raise e ->
        result.1 = Raise e)).
Proof.
  intros c result. subst result. rewrite request_result. fold c.
  split; [reflexivity|]. split; [|split].
  - by intros e ->.
  - intros response -> Hs. cbn. unfold client.raise_for_status. by rewrite Hs.
  - intros response -> Hs. cbn. unfold client.raise_for_status. rewrite Hs. cbn.
    split; [reflexivity|]. split; [|split].
    + by intros d ->.
    + intros v -> Hv. split; [reflexivity|]. intros d [= ->]. discriminate.
    + by intros e ->.
Qed.

Lemma request_spec_witness :
  let self := client.__init__ {| client.base_url := "https://cp.example";
                                 client.api_key := None;
                                 client.timeout := client.default_timeout |} in
  let send := fun (_ : list client.http_call) (_ : client.http_call) =>
                Return {| client.status_code := 404; client.content := "" |} in
  let json_loads := fun _ : string => Return VNone in
  (client.request send json_loads self "GET" "/jobs/j1" ∅ []).1 = Raise (HTTPStatusError 404).
Proof.
  intros self send json_loads.
  destruct (request_spec send json_loads self "GET" "/jobs/j1" ∅ []) as (_ & _ & Hfail & _).
  apply (Hfail {| client.status_code := 404; client.content := "" |}); reflexivity.
Defined.

(* --------------------------------------------------------------------- *)
(** ** The validator: fields, errors, unrecognised keys *)
(* --------------------------------------------------------------------- *)

Section ValidatorFacts.
Context `{TextFormats}.

Lemma collect_Valid {A} (c : checked A) (cs : checked (list A)) l :
  collect c cs = Valid l ->
  exists a l', c = Valid a /\ cs = Valid l' /\ l = a :: l'.
Proof.
  destruct c as [a|es], cs as [l'|es']; cbn; intros Heq; try discriminate.
  injection Heq as <-. by exists a, l'.
Qed.

Lemma collect_Invalid_head {A} (c : checked A) (cs : checked (list A)) es :
  c = Invalid es ->
  exists errs, collect c cs = Invalid errs /\ forall e, e ∈ es -> e ∈ errs.
Proof.
  intros ->. destruct cs as [l'|es']; cbn.
  - by exists es.
  - exists (es ++ es'). split; [done|]. intros e He. apply elem_of_app. by left.
Qed.

Lemma collect_Invalid_tail {A} (c : checked A) (cs : checked (list A)) es :
  cs = Invalid es ->
  exists errs, collect c cs = Invalid errs /\ forall e, e ∈ es -> e ∈ errs.
Proof.
  intros ->. destruct c as [a|es']; cbn.
  - by exists es.
  - exists (es' ++ es). split; [done|]. intros e He. apply elem_of_app. by right.
Qed.

(** The errors of any one field are among the errors of the whole. *)
Lemma validate_fields_keeps_errors D fields nf es :
  nf ∈ fields ->
  validate_field D nf = Invalid es ->
  exists errs, validate_fields D fields = Invalid errs /\ forall e, e ∈ es -> e ∈ errs.
Proof.
  induction fields as [|nf0 rest IH]; intros Hin Hnf.
  - by apply elem_of_nil in Hin.
  - cbn [validate_fields]. apply elem_of_cons in Hin as [<- | Hin].
    + by apply collect_Invalid_head.
    + destruct (IH Hin Hnf) as (errs & Hrest & Hsub).
      destruct (collect_Invalid_tail (validate_field D nf0) _ _ Hrest)
        as (errs' & Hc & Hsub').
      exists errs'. split; [done|]. auto.
Qed.

(** Success means every field was valid. *)
Lemma validate_fields_Valid D fields vals nf :
  validate_fields D fields = Valid vals ->
  nf ∈ fields ->
  exists v, validate_field D nf = Valid (nf.1, v) /\ (nf.1, v) ∈ vals.
Proof.
  revert vals. induction fields as [|nf0 rest IH]; intros vals Hv Hin.
  - by apply elem_of_nil in Hin.
  - cbn [validate_fields] in Hv.
    apply collect_Valid in Hv as (a & l' & Ha & Hl & ->).
    apply elem_of_cons in Hin as [-> | Hin].
    + assert (a.1 = nf0.1) as Hname.
      { unfold validate_field in Ha.
        destruct (D !! nf0.1) as [v|].
        - destruct (coerce _ v); cbn in Ha; [|discriminate]. by injection Ha as <-.
        - destruct (default nf0.2); [|discriminate]. by injection Ha as <-. }
      exists a.2. rewrite <- Hname, <- surjective_pairing.
      split; [done|]. apply elem_of_cons. by left.
    + destruct (IH l' Hl Hin) as (v & Hf & Hel).
      exists v. split; [done|]. apply elem_of_cons. by right.
Qed.

Lemma validate_Raise (cls : model) D errs :
  validate_fields D (model_fields cls) = Invalid errs ->
  validation.validate cls D = Raise (ValidationError (cls_name cls) errs).
Proof.
  intros Hv. unfold validation.validate, model_validate, model_BaseModel,
    model_validate_fields. by rewrite Hv.
Qed.

Lemma validate_Return (cls : model) D i :
  validation.validate cls D = Return i ->
  inst_class i = cls_name cls /\ validate_fields D (model_fields cls) = Valid (inst_dict i).
Proof.
  unfold validation.validate, model_validate, model_BaseModel, model_validate_fields.
  destruct (validate_fields D (model_fields cls)) as [vals|errs]; [|discriminate].
  by intros [= <-].
Qed.

(** A required field absent from the mapping is reported at its path. *)
Lemma validate_missing (cls : model) D f info :
  (f, info) ∈ model_fields cls ->
  default info = None ->
  D !! f = None ->
  exists errs,
    validation.validate cls D = Raise (ValidationError (cls_name cls) errs) /\
    {| err_type := "missing"; err_loc := [LKey f];
       err_msg := "Field required"; err_input := VDict D |} ∈ errs.
Proof.
  intros Hin Hdef Hnone.
  destruct (validate_fields_keeps_errors D (model_fields cls) (f, info)
              [{| err_type := "missing"; err_loc := [LKey f];
                  err_msg := "Field required"; err_input := VDict D |}] Hin)
    as (errs & Hv & Hsub).
  { unfold validate_field. cbn. by rewrite Hnone, Hdef. }
  exists errs. split; [by apply validate_Raise|].
  apply Hsub, list_elem_of_singleton. reflexivity.
Qed.

(** A field reads the mapping at its own key only. *)
Lemma validate_field_agree D D' nf :
  D !! nf.1 = D' !! nf.1 ->
  agree (validate_field D nf) (validate_field D' nf).
Proof.
  intros Heq. unfold validate_field. rewrite <- Heq.
  destruct (D !! nf.1) as [v|].
  - destruct (coerce (annotation nf.2) v); cbn; done.
  - destruct (default nf.2); cbn; done.
Qed.

Lemma collect_agree {A} (c c' : checked A) (cs cs' : checked (list A)) :
  agree c c' -> agree cs cs' -> agree (collect c cs) (collect c' cs').
Proof.
  destruct c, c', cs, cs'; cbn; try done; intros H1 H2; subst;
    rewrite ?fmap_app; congruence.
Qed.

Lemma validate_fields_agree D D' fields :
  (forall nf, nf ∈ fields -> D !! nf.1 = D' !! nf.1) ->
  agree (validate_fields D fields) (validate_fields D' fields).
Proof.
  induction fields as [|nf rest IH]; intros Hsame; [done|].
  cbn [validate_fields]. apply collect_agree.
  - apply validate_field_agree, Hsame, elem_of_cons. by left.
  - apply IH. intros nf' Hin. apply Hsame, elem_of_cons. by right.
Qed.

Lemma validate_same_result (cls : model) D D' :
  (forall f, f ∈ field_names cls -> D !! f = D' !! f) ->
  same_result (validation.validate cls D) (validation.validate cls D').
Proof.
  intros Hsame.
  assert (agree (validate_fields D (model_fields cls)) (validate_fields D' (model_fields cls)))
    as Hag.
  { apply validate_fields_agree. intros nf Hin. apply Hsame.
    unfold field_names. apply list_elem_of_fmap. by exists nf. }
  unfold validation.validate, model_validate, model_BaseModel, model_validate_fields.
  destruct (validate_fields D _), (validate_fields D' _); cbn in *; try done.
  by subst.
Qed.

Lemma lookup_restrict (cls : model) D f :
  f ∈ field_names cls -> restrict cls D !! f = D !! f.
Proof.
  intros Hin. unfold restrict. rewrite map_lookup_filter.
  destruct (D !! f) as [v|]; [|done]. cbn. by rewrite option_guard_True.
Qed.

Lemma lookup_union_extras (cls : model) (D extras : gmap string value) f :
  (forall k, k ∈ field_names cls -> extras !! k = None) ->
  f ∈ field_names cls -> (extras ∪ D) !! f = D !! f.
Proof.
  intros Hex Hin. rewrite lookup_union_r; [done|]. by apply Hex.
Qed.
End ValidatorFacts.

(** C4. Whenever the mapping lacks a field the class declares without a
    default, [validate] fails and the error list holds a failure whose path
    is that field; in particular the job request of the specification
    without its payload fails, citing the path [payload]. *)
Theorem validate_missing_required `{TextFormats} :
  (forall (cls : model) (D : gmap string value) (f : string) (info : FieldInfo),
     (f, info) ∈ model_fields cls ->
     default info = None ->
     D !! f = None ->
     exists errs,
       validation.validate cls D = Raise (ValidationError (cls_name cls) errs) /\
       exists e, e ∈ errs /\ err_loc e = [LKey f] /\ err_type e = "missing") /\
  define models.JobRequest = Return JobRequest_class /\
  validation.validate JobRequest_class (delete "payload" job_request_data) =
    Raise (ValidationError "JobRequest"
             [{| err_type := "missing"; err_loc := [LKey "payload"];
                 err_msg := "Field required";
                 err_input := VDict (delete "payload" job_request_data) |}]).
Proof.
  split; [|split].
  - intros cls D f info Hin Hdef Hnone.
    destruct (validate_missing cls D f info Hin Hdef Hnone) as (errs & Hv & He).
    exists errs. split; [done|]. eexists. split; [exact He|]. done.
  - vm_compute. reflexivity.
  - vm_compute. reflexivity.
Qed.

Lemma validate_missing_required_witness :
  exists errs,
    validation.validate (H:=model_BaseModel (H:=no_text_conversion)) JobRequest_class
      (delete "payload" job_request_data)
    = Raise (ValidationError (cls_name JobRequest_class) errs) /\
    exists e, e ∈ errs /\ err_loc e = [LKey "payload"] /\ err_type e = "missing".
Proof.
  apply (proj1 (validate_missing_required (H:=no_text_conversion))
           JobRequest_class (delete "payload" job_request_data) "payload"
           {| annotation := TDict TStr TAny; default := None |}).
  - cbn. do 3 apply list_elem_of_further. apply list_elem_of_here.
  - reflexivity.
  - reflexivity.
Defined.

(** C7. Keys of the mapping that the class does not declare are ignored:
    [validate] on a mapping gives the result it gives on the mapping
    restricted to the declared keys, and adding undeclared keys to a
    mapping does not change the instance, nor turn a success into a
    failure. The results are the same instance, or failures with the same
    kinds, paths and messages. *)
Theorem validate_ignores_undeclared_keys `{TextFormats} (cls : model) (D : gmap string value) :
  same_result (validation.validate cls D) (validation.validate cls (restrict cls D)) /\
  (forall i, validation.validate cls D = Return i <->
             validation.validate cls (restrict cls D) = Return i) /\
  (forall extras : gmap string value,
     (forall k, k ∈ field_names cls -> extras !! k = None) ->
     same_result (validation.validate cls (extras ∪ D)) (validation.validate cls D) /\
     forall i, validation.validate cls D = Return i ->
               validation.validate cls (extras ∪ D) = Return i).
Proof.
  assert (Hr : same_result (validation.validate cls D) (validation.validate cls (restrict cls D))).
  { apply validate_same_result. intros f Hin. symmetry. by apply lookup_restrict. }
  split; [exact Hr|]. split.
  - intros i. destruct (validation.validate cls D) as [j|e],
      (validation.validate cls (restrict cls D)) as [j'|e']; cbn in Hr; try done.
    + by subst j'.
    + destruct e; done.
  - intros extras Hex.
    assert (Hu : same_result (validation.validate cls (extras ∪ D)) (validation.validate cls D)).
    { apply validate_same_result. intros f Hin. by apply (lookup_union_extras cls). }
    split; [exact Hu|]. intros i Hi. rewrite Hi in Hu.
    destruct (validation.validate cls (extras ∪ D)) as [j|e]; cbn in Hu.
    + by subst j.
    + destruct e; done.
Qed.

Lemma validate_ignores_undeclared_keys_witness :
  exists i,
    validation.validate (H:=model_BaseModel (H:=no_text_conversion)) JobRequest_class
      job_request_data = Return i /\
    validation.validate (H:=model_BaseModel (H:=no_text_conversion)) JobRequest_class
      (<["traceId" := VStr "t-1"]> ∅ ∪ job_request_data) = Return i.
Proof.
  eexists. split.
  - vm_compute. reflexivity.
  - apply (validate_ignores_undeclared_keys (H:=no_text_conversion)).
    + intros k Hk. apply lookup_insert_None. split; [done|].
      intros <-. revert Hk. vm_compute. intros Hk.
      repeat (apply elem_of_cons in Hk as [Hk|Hk]; [discriminate|]).
      by apply elem_of_nil in Hk.
    + vm_compute. reflexivity.
Defined.

(* --------------------------------------------------------------------- *)
(** ** Declared types and enumerated fields *)
(* --------------------------------------------------------------------- *)

Section TypeFacts.
Context `{TextFormats}.

Lemma coerce_literal_Valid choices v v' :
  coerce (TLiteral choices) v = Valid v' ->
  exists s, v = VStr s /\ s ∈ choices /\ v' = v.
Proof.
  cbn [coerce]. unfold coerce_literal.
  destruct v as [| | | |s| | | | |]; try discriminate.
  case_bool_decide as Hs; [|discriminate].
  intros [= <-]. by exists s.
Qed.

Lemma coerce_literal_Invalid choices v :
  outside choices v ->
  coerce (TLiteral choices) v =
    failure "literal_error" "Input should be one of the declared literals" v.
Proof.
  intros Hout. cbn [coerce]. unfold coerce_literal.
  destruct v as [| | | |s| | | | |]; try reflexivity.
  case_bool_decide as Hs; [|reflexivity]. by destruct (Hout s eq_refl).
Qed.

Lemma check_items_exact (f : value -> checked value) i vs :
  (forall v, v ∈ vs -> f v = Valid v) -> check_items f i vs = Valid vs.
Proof.
  revert i. induction vs as [|v vs IH]; intros i Hf; [done|].
  cbn [check_items]. rewrite (Hf v) by apply list_elem_of_here.
  rewrite IH; [done|]. intros w Hw. by apply Hf, list_elem_of_further.
Qed.

Lemma check_entries_exact (fk fv : value -> checked value) kvs :
  (forall k v, (k, v) ∈ kvs -> fk (VStr k) = Valid (VStr k) /\ fv v = Valid v) ->
  check_entries fk fv kvs = Valid kvs.
Proof.
  induction kvs as [|[k v] kvs IH]; intros Hf; [done|].
  cbn [check_entries].
  destruct (Hf k v) as [-> ->]; [apply list_elem_of_here|].
  rewrite IH; [done|]. intros k' v' Hin. by apply Hf, list_elem_of_further.
Qed.

(** A value that has the declared type exactly is accepted as it is. *)
Lemma coerce_exact t v : has_type t v = true -> coerce t v = Valid v.
Proof.
  revert v. induction t as [| | | | | | |choices|item IH|key IHk val IHv|inner IH|members];
    intros v Hv.
  1-7: by destruct v.
  - destruct v; try done. cbn in *. by rewrite Hv.
  - destruct v as [| | | | |vs| | | |]; try done. cbn in *.
    rewrite check_items_exact; [done|].
    intros w Hw. apply IH. rewrite forallb_forall in Hv. by apply Hv, list_elem_of_In.
  - destruct v as [| | | | | |d| | |]; try done. cbn in *.
    rewrite check_entries_exact.
    + cbn. by rewrite list_to_map_to_list.
    + intros k w Hin. rewrite forallb_forall in Hv.
      apply list_elem_of_In, Hv, andb_prop in Hin as [Hk Hw]. split; auto.
  - destruct v; cbn in *; auto.
  - cbn in *. by rewrite Hv.
Qed.

(** Induction on an annotation, with the property for every member of a
    union. *)
Lemma ftype_nested_ind (P : ftype -> Prop) :
  P TStr -> P TInt -> P TFloat -> P TBool -> P TDatetime -> P TAny -> P TNone ->
  (forall choices, P (TLiteral choices)) ->
  (forall item, P item -> P (TList item)) ->
  (forall key val, P key -> P val -> P (TDict key val)) ->
  (forall inner, P inner -> P (TOptional inner)) ->
  (forall members, Forall P members -> P (TUnion members)) ->
  forall t, P t.
Proof.
  intros HS HI HF HB HD HA HN HL Hlist Hdict Hopt Hunion.
  fix IH 1. intros [| | | | | | |choices|item|key val|inner|members].
  - exact HS.
  - exact HI.
  - exact HF.
  - exact HB.
  - exact HD.
  - exact HA.
  - exact HN.
  - apply HL.
  - apply Hlist, IH.
  - apply Hdict; apply IH.
  - apply Hopt, IH.
  - apply Hunion. induction members as [|m members IHm]; constructor.
    + apply IH.
    + exact IHm.
Qed.

Lemma of_option_Valid {A} (o : option A) ty msg input a :
  of_option o ty msg input = Valid a -> o = Some a.
Proof. destruct o; cbn; [by intros [= ->]|discriminate]. Qed.

Lemma under_Valid {A} l (c : checked A) a : under l c = Valid a -> c = Valid a.
Proof. destruct c; cbn; [by intros [= ->]|discriminate]. Qed.

Lemma under_Invalid {A} l (c : checked A) errs :
  under l c = Invalid errs -> exists es, c = Invalid es /\ errs = at_loc l <$> es.
Proof. destruct c as [a|es]; cbn; [discriminate|]. intros [= <-]. by exists es. Qed.

Lemma checked_fmap_Valid {A B} (g : A -> B) (c : checked A) b :
  g <$> c = Valid b -> exists a, c = Valid a /\ b = g a.
Proof. destruct c as [a|es]; cbn; [|discriminate]. intros [= <-]. by exists a. Qed.

Lemma checked_fmap_Invalid {A B} (g : A -> B) (c : checked A) es :
  g <$> c = Invalid es -> c = Invalid es.
Proof. destruct c as [a|es']; cbn; [discriminate|]. by intros [= <-]. Qed.

Lemma collect_Invalid {A} (c : checked A) (cs : checked (list A)) errs :
  collect c cs = Invalid errs ->
  (forall es, c = Invalid es -> es ≠ []) ->
  (forall es, cs = Invalid es -> es ≠ []) ->
  errs ≠ [].
Proof.
  destruct c as [a|es], cs as [l|es']; cbn; intros Heq Hc Hcs; try discriminate;
    injection Heq as <-.
  - by apply Hcs.
  - by apply Hc.
  - intros [Hnil _]%app_eq_nil. by apply (Hc es).
Qed.

Lemma check_items_Valid (f : value -> checked value) i vs ws :
  check_items f i vs = Valid ws -> Forall2 (fun v w => f v = Valid w) vs ws.
Proof.
  revert i ws. induction vs as [|v vs IH]; intros i ws; cbn [check_items].
  - intros [= <-]. constructor.
  - intros (a & l & Ha%under_Valid & Hl & ->)%collect_Valid.
    constructor; [done|]. by apply (IH (S i)).
Qed.

Lemma check_items_Invalid (f : value -> checked value) i vs errs :
  check_items f i vs = Invalid errs ->
  (forall v es, v ∈ vs -> f v = Invalid es -> es ≠ []) ->
  errs ≠ [].
Proof.
  revert i errs. induction vs as [|v vs IH]; intros i errs; cbn [check_items];
    [discriminate|].
  intros Hc Hf. apply (collect_Invalid _ _ _ Hc).
  - intros es (es0 & Hv & ->)%under_Invalid Hnil.
    apply fmap_nil_inv in Hnil. by apply (Hf v es0 (list_elem_of_here _ _) Hv).
  - intros es Hrest. apply (IH (S i) es Hrest).
    intros w es' Hw. by apply Hf, list_elem_of_further.
Qed.

Lemma check_entries_Valid (fk fv : value -> checked value) kvs kws :
  check_entries fk fv kvs = Valid kws ->
  Forall2 (fun kv kw => kw.1 = kv.1 /\ (exists k', fk (VStr kv.1) = Valid k') /\
                        fv kv.2 = Valid kw.2) kvs kws.
Proof.
  revert kws. induction kvs as [|[k v] kvs IH]; intros kws; cbn [check_entries].
  - intros [= <-]. constructor.
  - intros (a & l & Ha & Hl & ->)%collect_Valid.
    constructor; [|by apply IH]. cbn [fst snd].
    destruct (fk (VStr k)) as [k'|ek], (fv v) as [w|ev]; cbn in Ha; try discriminate.
    injection Ha as <-. split; [done|]. split; [by eexists|done].
Qed.

Lemma check_entries_Invalid (fk fv : value -> checked value) kvs errs :
  check_entries fk fv kvs = Invalid errs ->
  (forall k v es, (k, v) ∈ kvs -> fk (VStr k) = Invalid es -> es ≠ []) ->
  (forall k v es, (k, v) ∈ kvs -> fv v = Invalid es -> es ≠ []) ->
  errs ≠ [].
Proof.
  revert errs. induction kvs as [|[k v] kvs IH]; intros errs; cbn [check_entries];
    [discriminate|].
  intros Hc Hk Hv. apply (collect_Invalid _ _ _ Hc).
  - intros es Hentry.
    pose proof (Hk k v) as Hk0. pose proof (Hv k v) as Hv0.
    destruct (fk (VStr k)) as [k'|ek], (fv v) as [w|ev]; cbn in Hentry;
      try discriminate; injection Hentry as <-.
    + intros Hnil%fmap_nil_inv. by apply (Hv0 ev (list_elem_of_here _ _)).
    + intros Hnil%fmap_nil_inv. by apply (Hk0 ek (list_elem_of_here _ _)).
    + intros [Hnil%fmap_nil_inv _]%app_eq_nil.
      by apply (Hk0 ek (list_elem_of_here _ _)).
  - intros es Hrest. apply (IH es Hrest).
    + intros k0 v0 es0 Hin. by apply (Hk k0 v0), list_elem_of_further.
    + intros k0 v0 es0 Hin. by apply (Hv k0 v0), list_elem_of_further.
Qed.

(** What a union accepts: the value as it is when it has the type of a
    member, and otherwise what some member converts it to. *)
Lemma coerce_union_Valid members v v' :
  coerce (TUnion members) v = Valid v' ->
  (existsb (fun m => has_type m v) members = true /\ v' = v) \/
  exists m, m ∈ members /\ coerce m v = Valid v'.
Proof.
  cbn [coerce]. destruct (existsb _ members); [intros [= <-]; by left|].
  intros Hc. right. induction members as [|m members IH]; [discriminate|].
  destruct (coerce m v) as [w|es] eqn:Hm.
  - injection Hc as <-. exists m. split; [apply list_elem_of_here|done].
  - match type of Hc with
    | match ?rest with _ => _ end = _ => destruct rest as [w|es'] eqn:Hrest
    end; [|discriminate].
    injection Hc as <-. destruct (IH eq_refl) as (m' & Hin & Hm').
    exists m'. split; [by apply list_elem_of_further|done].
Qed.

Lemma coerce_union_Invalid members v errs :
  coerce (TUnion members) v = Invalid errs ->
  members ≠ [] ->
  (forall m es, m ∈ members -> coerce m v = Invalid es -> es ≠ []) ->
  errs ≠ [].
Proof.
  cbn [coerce]. destruct (existsb _ members); [discriminate|].
  destruct members as [|m members]; [done|]. intros Hc _ Hm.
  destruct (coerce m v) as [w|es] eqn:Hmv; [discriminate|].
  match type of Hc with
  | match ?rest with _ => _ end = _ => destruct rest as [w|es']
  end; [discriminate|].
  injection Hc as <-. intros [Hnil%fmap_nil_inv _]%app_eq_nil.
  by apply (Hm m es (list_elem_of_here _ _)).
Qed.

(** What the validator accepts was of a kind it converts. *)
Lemma coerce_convertible t v v' : coerce t v = Valid v' -> convertible t v = true.
Proof.
  revert v v'. induction t as [| | | | | | |choices|item IH|key val IHk IHv|inner IH|members IH]
    using ftype_nested_ind; intros v v' Hc.
  1-7: by destruct v.
  - destruct v as [| | | |s| | | | |]; try discriminate. cbn in *.
    by case_bool_decide.
  - destruct v as [| | | | |vs| | | |]; try discriminate. cbn in *.
    apply checked_fmap_Valid in Hc as (ws & Hws%check_items_Valid & _).
    apply forallb_forall. intros w Hw%list_elem_of_In.
    apply list_elem_of_lookup_1 in Hw as [n Hn].
    destruct (Forall2_lookup_l _ _ _ n _ Hws Hn) as (w' & _ & Hw'). by apply (IH w w').
  - destruct v as [| | | | | |d| | |]; try discriminate. cbn in *.
    apply checked_fmap_Valid in Hc as (kws & Hkws%check_entries_Valid & _).
    apply forallb_forall. intros [k w] Hw%list_elem_of_In.
    apply list_elem_of_lookup_1 in Hw as [n Hn].
    destruct (Forall2_lookup_l _ _ _ n _ Hkws Hn) as ([k' w'] & _ & _ & [k0 Hk] & Hw').
    cbn in *. by rewrite (IHk _ _ Hk), (IHv _ _ Hw').
  - destruct v; cbn in *; try done; by apply (IH _ v').
  - cbn [convertible]. apply existsb_exists.
    rewrite Forall_forall in IH.
    apply coerce_union_Valid in Hc as [[Hex ->]|(m & Hin & Hm)].
    + apply existsb_exists in Hex as (m & Hin & Hm). exists m. split; [done|].
      apply (IH m (proj2 (list_elem_of_In _ _) Hin) v v). by apply coerce_exact.
    + exists m. split; [by apply list_elem_of_In|]. by apply (IH m Hin v v').
Qed.

(** What the validator stores has the declared type. *)
Lemma coerce_has_type t v v' :
  representable t = true -> coerce t v = Valid v' -> has_type t v' = true.
Proof.
  revert v v'. induction t as [| | | | | | |choices|item IH|key val IHk IHv|inner IH|members IH]
    using ftype_nested_ind; intros v v' Hr Hc.
  - destruct v; try discriminate. by injection Hc as <-.
  - destruct v as [|b|n|f|s| | | | |]; cbn in Hc; try discriminate.
    + by injection Hc as <-.
    + by injection Hc as <-.
    + by apply checked_fmap_Valid in Hc as (n & _ & ->).
    + apply of_option_Valid in Hc. by destruct (str_as_int s); simplify_eq/=.
  - destruct v as [|b|n|f|s| | | | |]; cbn in Hc; try discriminate.
    + by injection Hc as <-.
    + apply of_option_Valid in Hc. by destruct (finite _); simplify_eq/=.
    + by injection Hc as <-.
    + apply of_option_Valid in Hc. by destruct (str_as_float s); simplify_eq/=.
  - destruct v as [|b|n|f|s| | | | |]; cbn in Hc; try discriminate.
    + by injection Hc as <-.
    + destruct (_ && _); [|discriminate].
      apply of_option_Valid in Hc. by destruct (int_as_bool n); simplify_eq/=.
    + destruct (float_as_int f _) as [n|]; [|discriminate].
      apply of_option_Valid in Hc. by destruct (int_as_bool n); simplify_eq/=.
    + apply of_option_Valid in Hc. by destruct (str_as_bool s); simplify_eq/=.
  - destruct v as [| |n|f|s| | |d| |]; cbn in Hc; try discriminate.
    + apply of_option_Valid in Hc. by destruct (int_as_datetime n); simplify_eq/=.
    + apply of_option_Valid in Hc. by destruct (float_as_datetime f); simplify_eq/=.
    + apply of_option_Valid in Hc. by destruct (str_as_datetime s); simplify_eq/=.
    + by injection Hc as <-.
  - done.
  - destruct v; try discriminate. by injection Hc as <-.
  - apply coerce_literal_Valid in Hc as (s & -> & Hs & ->). cbn.
    by apply bool_decide_eq_true_2.
  - destruct v as [| | | | |vs| | | |]; try discriminate. cbn in *.
    apply checked_fmap_Valid in Hc as (ws & Hws%check_items_Valid & ->).
    cbn. apply forallb_forall. intros w Hw%list_elem_of_In.
    apply list_elem_of_lookup_1 in Hw as [n Hn].
    destruct (Forall2_lookup_r _ _ _ n _ Hws Hn) as (w' & _ & Hw'). by apply (IH w' w).
  - destruct v as [| | | | | |d| | |]; try discriminate. cbn in *.
    apply andb_prop in Hr as [Hkey Hval].
    apply checked_fmap_Valid in Hc as (kws & Hkws%check_entries_Valid & ->).
    cbn. apply forallb_forall. intros [k w] Hw%list_elem_of_In.
    apply elem_of_map_to_list, elem_of_list_to_map_2 in Hw.
    apply list_elem_of_lookup_1 in Hw as [n Hn].
    destruct (Forall2_lookup_r _ _ _ n _ Hkws Hn) as ([k' w'] & _ & Hk' & [k0 Hk] & Hw').
    cbn in *. subst k'. rewrite (IHv _ _ Hval Hw'), andb_true_r.
    destruct key; try discriminate; try reflexivity.
    apply coerce_literal_Valid in Hk as (s & [= <-] & Hs & _). cbn.
    by apply bool_decide_eq_true_2.
  - destruct v; cbn in Hc;
      try (injection Hc as <-; reflexivity);
      apply (IH _ _ Hr) in Hc; cbn; by destruct v'.
  - cbn in Hr. apply andb_prop in Hr as [_ Hr].
    rewrite forallb_forall in Hr. rewrite Forall_forall in IH.
    apply coerce_union_Valid in Hc as [[Hex ->]|(m & Hin & Hm)]; [done|].
    cbn. apply existsb_exists. exists m. split; [by apply list_elem_of_In|].
    apply (IH m Hin v v'); [|done]. by apply Hr, list_elem_of_In.
Qed.

(** A failed conversion reports at least one error. *)
Lemma coerce_Invalid_nonempty t v es :
  representable t = true -> coerce t v = Invalid es -> es ≠ [].
Proof.
  revert v es. induction t as [| | | | | | |choices|item IH|key val IHk IHv|inner IH|members IH]
    using ftype_nested_ind; intros v es Hr Hc.
  6: done.
  1-7: (destruct v as [|b|n|f|s| | |d| |]; cbn in Hc; try discriminate;
        repeat match type of Hc with
               | context [of_option ?o] => destruct o; cbn in Hc
               | context [if ?c then _ else _] => destruct c; cbn in Hc
               | context [float_as_int ?f ?w] =>
                   let Hf := fresh in
                   destruct (float_as_int f w) eqn:Hf; cbn in Hc;
                   [|unfold float_as_int in Hf;
                     repeat match type of Hf with
                            | context [match ?x with _ => _ end] => destruct x
                            end; try discriminate; injection Hf as <-]
               end; try discriminate; by injection Hc as <-).
  - destruct v as [| | | | |vs| | | |]; cbn in Hc; try (by injection Hc as <-).
    apply checked_fmap_Invalid in Hc. apply (check_items_Invalid _ _ _ _ Hc).
    intros w es' _. by apply IH.
  - cbn in Hr. apply andb_prop in Hr as [Hkey Hval].
    destruct v as [| | | | | |d| | |]; cbn in Hc; try (by injection Hc as <-).
    apply checked_fmap_Invalid in Hc. apply (check_entries_Invalid _ _ _ _ Hc).
    + intros k w es' _. apply IHk. by destruct key.
    + intros k w es' _. by apply IHv.
  - destruct v; cbn in Hc; try discriminate; by apply (IH _ _ Hr Hc).
  - cbn in Hr. apply andb_prop in Hr as [Hne Hr].
    rewrite forallb_forall in Hr. rewrite Forall_forall in IH.
    apply (coerce_union_Invalid _ _ _ Hc).
    + by destruct members.
    + intros m es' Hin. apply (IH m Hin). by apply Hr, list_elem_of_In.
Qed.

(** A present field of a successful validation converted to its type, and
    the instance holds the converted value. *)
Lemma validate_present_converts (cls : model) D i f info v :
  validation.validate cls D = Return i ->
  (f, info) ∈ model_fields cls ->
  D !! f = Some v ->
  exists v', coerce (annotation info) v = Valid v' /\ (f, v') ∈ inst_dict i.
Proof.
  intros [_ Hv]%validate_Return Hin Hsome.
  destruct (validate_fields_Valid D _ _ (f, info) Hv Hin) as (v' & Hf & Hel).
  exists v'. split; [|done].
  unfold validate_field in Hf. cbn in Hf. rewrite Hsome in Hf.
  destruct (coerce (annotation info) v) as [w|es]; cbn in Hf; [|discriminate].
  by injection Hf as ->.
Qed.

(** An enumerated field whose value is outside its literals fails at the
    field; so does an optional one, unless the value is [None]. *)
Lemma validate_literal_outside (cls : model) D f info choices v :
  (f, info) ∈ model_fields cls ->
  annotation info = TLiteral choices \/
    (annotation info = TOptional (TLiteral choices) /\ v ≠ VNone) ->
  D !! f = Some v ->
  outside choices v ->
  exists errs,
    validation.validate cls D = Raise (ValidationError (cls_name cls) errs) /\
    {| err_type := "literal_error"; err_loc := [LKey f];
       err_msg := "Input should be one of the declared literals";
       err_input := v |} ∈ errs.
Proof.
  intros Hin Hann Hsome Hout.
  destruct (validate_fields_keeps_errors D (model_fields cls) (f, info)
              [{| err_type := "literal_error"; err_loc := [LKey f];
                  err_msg := "Input should be one of the declared literals";
                  err_input := v |}] Hin)
    as (errs & Hv & Hsub).
  { unfold validate_field. cbn [fst snd]. rewrite Hsome.
    destruct Hann as [-> | [-> Hnn]].
    - by rewrite (coerce_literal_Invalid choices v Hout).
    - replace (coerce (TOptional (TLiteral choices)) v)
        with (coerce (TLiteral choices) v) by by destruct v.
      by rewrite (coerce_literal_Invalid choices v Hout). }
  exists errs. split; [by apply validate_Raise|].
  apply Hsub, list_elem_of_singleton. reflexivity.
Qed.

(** A present value of a kind the validator does not convert to the
    declared type fails, with an error under the field. *)
Lemma validate_not_convertible (cls : model) D f info v :
  (f, info) ∈ model_fields cls ->
  representable (annotation info) = true ->
  D !! f = Some v ->
  convertible (annotation info) v = false ->
  exists errs,
    validation.validate cls D = Raise (ValidationError (cls_name cls) errs) /\
    exists e rest, e ∈ errs /\ err_loc e = LKey f :: rest.
Proof.
  intros Hin Hr Hsome Hk.
  destruct (coerce (annotation info) v) as [v'|es] eqn:Hc.
  { apply coerce_convertible in Hc. congruence. }
  pose proof (coerce_Invalid_nonempty _ _ _ Hr Hc) as Hne.
  destruct es as [|e0 es]; [done|].
  destruct (validate_fields_keeps_errors D (model_fields cls) (f, info)
              (at_loc (LKey f) <$> e0 :: es) Hin)
    as (errs & Hv & Hsub).
  { unfold validate_field. cbn [fst snd]. by rewrite Hsome, Hc. }
  exists errs. split; [by apply validate_Raise|].
  exists (at_loc (LKey f) e0), (err_loc e0). split; [|reflexivity].
  apply Hsub. cbn. apply list_elem_of_here.
Qed.

(** A required enumerated field of a successful validation was given one
    of its literals. *)
Lemma validate_required_literal (cls : model) D i f choices :
  validation.validate cls D = Return i ->
  (f, {| annotation := TLiteral choices; default := None |}) ∈ model_fields cls ->
  exists s, D !! f = Some (VStr s) /\ s ∈ choices.
Proof.
  intros Hv Hin. destruct (D !! f) as [v|] eqn:Hsome.
  - destruct (validate_present_converts cls D i f _ v Hv Hin Hsome) as (v' & Hc & _).
    apply coerce_literal_Valid in Hc as (s & -> & Hs & _). by exists s.
  - destruct (validate_missing cls D f _ Hin eq_refl Hsome) as (errs & Hr & _).
    rewrite Hr in Hv. discriminate.
Qed.
End TypeFacts.

Lemma define_JobRequest : define models.JobRequest = Return JobRequest_class.
Proof. vm_compute. reflexivity. Qed.

Lemma define_JobResult : define models.JobResult = Return JobResult_class.
Proof. vm_compute. reflexivity. Qed.

Lemma define_JobResponse : define models.JobResponse = Return JobResponse_class.
Proof. vm_compute. reflexivity. Qed.

(** For every class of models.py that gives a [required] list, the list
    names exactly the fields declared without a default. *)
Lemma required_lists_consistent : forallb required_consistent models.classes = true.
Proof. vm_compute. reflexivity. Qed.

(** Every field of every class of models.py has an annotation whose
    values the embedding represents. *)
Lemma fields_representable_all : forallb fields_representable models.classes = true.
Proof. vm_compute. reflexivity. Qed.

(** C8, as stated, fails: the class [JobResult] declares [success: bool],
    and the mapping [{"success": 1, "metadata": {}}], whose [success] is
    an [int], validates; the instance holds [True]. *)
Lemma exact_types_counterexample :
  define models.JobResult = Return JobResult_class /\
  ("success", {| annotation := TBool; default := None |}) ∈ model_fields JobResult_class /\
  job_result_data !! "success" = Some (VInt 1) /\
  has_type TBool (VInt 1) = false /\
  forall tf : TextFormats,
    validation.validate (H:=model_BaseModel (H:=tf)) JobResult_class job_result_data =
      Return {| inst_class := "JobResult";
                inst_dict := [("success", VBool true); ("data", VNone);
                              ("error", VNone); ("metadata", VDict ∅)] |}.
Proof.
  split; [exact define_JobResult|].
  split; [apply list_elem_of_here|].
  split; [reflexivity|]. split; [reflexivity|].
  intros tf. vm_compute. reflexivity.
Qed.

(** C8, amended. A value that has the declared type is accepted as it is,
    but an exact match is not required. A successful validation means that
    every present field was of a kind the validator converts to the
    declared type and did convert, and the instance holds the converted
    value, which has the declared type exactly. A present value of a kind
    the validator does not convert to the declared type fails, with an
    error under that field. Every field of models.py is covered: its
    annotation is one the embedding represents. An enumerated field whose
    value is present and is not one of its literals fails, with an error
    at that field (an optional enumerated field also accepts [None]); in
    particular a job response validates only when its status is one of
    the seven job states. *)
Theorem validate_converts_and_checks_literals `{TextFormats} :
  (forall (t : ftype) (v : value), has_type t v = true -> coerce t v = Valid v) /\
  (forall (cls : model) (D : gmap string value) (i : instance) f info v,
     validation.validate cls D = Return i ->
     (f, info) ∈ model_fields cls ->
     representable (annotation info) = true ->
     D !! f = Some v ->
     convertible (annotation info) v = true /\
     exists v', coerce (annotation info) v = Valid v' /\ (f, v') ∈ inst_dict i /\
                has_type (annotation info) v' = true) /\
  (forall (cls : model) (D : gmap string value) f info v,
     (f, info) ∈ model_fields cls ->
     representable (annotation info) = true ->
     D !! f = Some v ->
     convertible (annotation info) v = false ->
     exists errs,
       validation.validate cls D = Raise (ValidationError (cls_name cls) errs) /\
       exists e rest, e ∈ errs /\ err_loc e = LKey f :: rest) /\
  (forall s, s ∈ models.classes ->
     exists cls, define (repair_stmt s) = Return cls /\
                 forall f info, (f, info) ∈ model_fields cls ->
                                representable (annotation info) = true) /\
  (forall (cls : model) (D : gmap string value) f info choices v,
     (f, info) ∈ model_fields cls ->
     annotation info = TLiteral choices \/
       (annotation info = TOptional (TLiteral choices) /\ v ≠ VNone) ->
     D !! f = Some v ->
     outside choices v ->
     exists errs,
       validation.validate cls D = Raise (ValidationError (cls_name cls) errs) /\
       exists e, e ∈ errs /\ err_loc e = [LKey f] /\ err_type e = "literal_error") /\
  define models.JobResponse = Return JobResponse_class /\
  (forall (D : gmap string value) (i : instance),
     validation.validate JobResponse_class D = Return i ->
     exists s, D !! "status" = Some (VStr s) /\ s ∈ job_status_literals).
Proof.
  split; [|split; [|split; [|split; [|split; [|split]]]]].
  - apply coerce_exact.
  - intros cls D i f info v Hv Hin Hr Hsome.
    destruct (validate_present_converts cls D i f info v Hv Hin Hsome) as (v' & Hc & Hel).
    split; [by apply (coerce_convertible _ _ v')|].
    exists v'. split; [done|]. split; [done|]. by apply (coerce_has_type _ v).
  - intros cls D f info v. apply validate_not_convertible.
  - intros s Hin%list_elem_of_In.
    pose proof fields_representable_all as Hall.
    rewrite forallb_forall in Hall. apply Hall in Hin.
    unfold fields_representable in Hin.
    destruct (define (repair_stmt s)) as [cls|e]; [|discriminate].
    exists cls. split; [done|]. intros f info Hf%list_elem_of_In.
    rewrite forallb_forall in Hin. by apply (Hin (f, info)).
  - intros cls D f info choices v Hin Hann Hsome Hout.
    destruct (validate_literal_outside cls D f info choices v Hin Hann Hsome Hout)
      as (errs & Hv & He).
    exists errs. split; [done|]. eexists. split; [exact He|]. done.
  - exact define_JobResponse.
  - intros D i Hv. apply (validate_required_literal JobResponse_class D i); [done|].
    cbn. apply list_elem_of_further, list_elem_of_here.
Qed.

(** A list given for the integer field [priority] of a job request is
    rejected, with an error under that field; the status [done] is
    rejected for a job response. *)
Lemma validate_converts_and_checks_literals_witness :
  (exists errs,
     validation.validate (H:=model_BaseModel (H:=no_text_conversion)) JobRequest_class
       (<["priority" := VList [VInt 1]]> job_request_data)
     = Raise (ValidationError (cls_name JobRequest_class) errs) /\
     exists e rest, e ∈ errs /\ err_loc e = LKey "priority" :: rest) /\
  exists errs,
    validation.validate (H:=model_BaseModel (H:=no_text_conversion)) JobResponse_class
      (<["status" := VStr "done"]> ∅)
    = Raise (ValidationError (cls_name JobResponse_class) errs) /\
    exists e, e ∈ errs /\ err_loc e = [LKey "status"] /\ err_type e = "literal_error".
Proof.
  destruct (validate_converts_and_checks_literals (H:=no_text_conversion))
    as (_ & _ & Hkind & _ & Hlit & _ & _).
  split.
  - apply (Hkind JobRequest_class (<["priority" := VList [VInt 1]]> job_request_data)
             "priority" {| annotation := TInt; default := Some (VInt 50) |}
             (VList [VInt 1])).
    + cbn. do 2 apply list_elem_of_further. apply list_elem_of_here.
    + reflexivity.
    + reflexivity.
    + reflexivity.
  - apply (Hlit JobResponse_class (<["status" := VStr "done"]> ∅) "status"
             {| annotation := TLiteral job_status_literals; default := None |}
             job_status_literals (VStr "done")).
    + cbn. apply list_elem_of_further, list_elem_of_here.
    + by left.
    + reflexivity.
    + intros s [= <-] Hin. unfold job_status_literals in Hin.
      repeat (apply elem_of_cons in Hin as [Hin|Hin]; [discriminate|]).
      by apply elem_of_nil in Hin.
Defined.

(* --------------------------------------------------------------------- *)
(** ** Importing models.py *)
(* --------------------------------------------------------------------- *)

Lemma import_models_raises : import_models = Raise (NameError "false").
Proof. vm_compute. reflexivity. Qed.

Lemma import_package_raises : import_package = Raise (NameError "false").
Proof. unfold import_package. by rewrite import_models_raises. Qed.

Lemma import_schemas_raises : import_schemas = Raise (NameError "false").
Proof. unfold import_schemas. by rewrite import_package_raises. Qed.

(** The class [JobRequest], run on its own, gives the job request of the
    specification its declared defaults. *)
Lemma job_request_defaults `{TextFormats} `{ClassAttributes} :
  exists i,
    validation.validate JobRequest_class job_request_data = Return i /\
    getattr i "priority" = Return (VInt 50) /\
    getattr i "timeoutMs" = Return (VInt 30000).
Proof.
  eexists. split; [vm_compute; reflexivity|]. split; reflexivity.
Qed.

(** With [false] and [true] replaced by the keywords, the module imports,
    every one of the forty-two names of the registry resolves to a class,
    and the scenario of the specification succeeds with the declared
    defaults. *)
Lemma repaired_models_import `{TextFormats} `{ClassAttributes} :
  length schemas.registry_display = 42%nat /\
  forallb (fun ka => match repaired_get_schema ka.1 with
                     | Return _ => true
                     | Raise _ => false
                     end) schemas.registry_display = true /\
  repaired_get_schema "JobRequest" = Return JobRequest_class /\
  exists i,
    validation.validate JobRequest_class job_request_data = Return i /\
    getattr i "priority" = Return (VInt 50) /\
    getattr i "timeoutMs" = Return (VInt 30000).
Proof.
  split; [reflexivity|].
  split; [vm_compute; reflexivity|].
  split; [vm_compute; reflexivity|].
  apply job_request_defaults.
Qed.

(** C2. The scenario run as the specification writes it,
    [get_schema("JobRequest")] then [validate], does not reach the
    validator: importing schemas.py imports models.py, whose class
    [ErrorEnvelope] raises [NameError] before [JobRequest] is defined. *)
Theorem job_request_scenario_raises `{TextFormats} :
  lookup_and_validate "JobRequest" job_request_data = Raise (NameError "false").
Proof. unfold lookup_and_validate. by rewrite import_schemas_raises. Qed.

(** C3. The defaults [false] and [true] of models.py are identifiers that
    nothing binds, not the boolean keywords: evaluating them raises
    [NameError], so do six of the class statements, and so does the import
    of models.py and of the registry built from it. *)
Theorem models_defaults_raise_NameError :
  rhs_of models.ErrorEnvelope "retryable" = Some (ECall "Field" [("default", EName "false")]) /\
  rhs_of models.TruthQueryResult "hasMore" = Some (ECall "Field" [("default", EName "false")]) /\
  rhs_of models.ConnectorConfig "required" = Some (ECall "Field" [("default", EName "false")]) /\
  rhs_of models.ConnectorConfig "healthCheckable"
    = Some (ECall "Field" [("default", EName "true")]) /\
  rhs_of models.RegistryQuery "includeCapabilities"
    = Some (ECall "Field" [("default", EName "true")]) /\
  rhs_of models.RegistryQuery "includeConnectors"
    = Some (ECall "Field" [("default", EName "true")]) /\
  eval ∅ models_imports (ECall "Field" [("default", EName "false")])
    = Raise (NameError "false") /\
  eval ∅ models_imports (ECall "Field" [("default", EName "true")])
    = Raise (NameError "true") /\
  undefined_classes = ["ErrorEnvelope"; "TruthQueryResult"; "ConnectorConfig";
                       "RegistryQuery"; "MarketplaceRunner"; "MarketplaceConnector"] /\
  undefined_classes ⊆ schemas.registry_display.*2 /\
  import_models = Raise (NameError "false") /\
  import_package = Raise (NameError "false") /\
  import_schemas = Raise (NameError "false").
Proof.
  repeat (split; [vm_compute; reflexivity|]).
  split; [by apply (bool_decide_unpack _); vm_compute|].
  repeat (split; [vm_compute; reflexivity|]). vm_compute; reflexivity.
Qed.

(* ===================================================================== *)
(** * Further properties of the package *)
(* ===================================================================== *)

(* --------------------------------------------------------------------- *)
(** ** validation.py *)
(* --------------------------------------------------------------------- *)

Section Wrappers.
Context {M I : Type} `{BaseModel M I}.

Lemma safe_validate_cases (mc : M) d :
  validation.safe_validate mc d =
  match validation.validate mc d with
  | Return i => Return (SuccessData i)
  | Raise (ValidationError t es) => Return (FailureError (ValidationError t es))
  | Raise e => Raise e
  end.
Proof.
  unfold validation.safe_validate.
  destruct (validation.validate mc d) as [i|e]; [done|]. by destruct e.
Qed.
End Wrappers.

(** X1. [safe_validate] catches validation errors only: when [validate]
    raises an exception of any other class, the function of validation.py
    and the method of the client both raise that same exception. *)
Theorem safe_validate_propagates_other_exceptions {M I : Type} `{BaseModel M I}
    (self : client.ControlPlaneClient) (model_class : M) (d : gmap string value) (e : exn) :
  validation.validate model_class d = Raise e ->
  (forall title errors, e ≠ ValidationError title errors) ->
  validation.safe_validate model_class d = Raise e /\
  client.safe_validate self model_class d = Raise e.
Proof.
  intros Hv Hne.
  assert (validation.safe_validate model_class d = Raise e) as Hs.
  { rewrite safe_validate_cases, Hv. destruct e; try done. by destruct (Hne title errors). }
  split; [done|].
  unfold client.safe_validate. rewrite client_validate_unfold.
  exact Hs.
Qed.

Lemma safe_validate_propagates_other_exceptions_witness :
  validation.safe_validate (H:=raising_model_validate) tt ∅ = Raise (TypeError "boom") /\
  client.safe_validate (H:=raising_model_validate)
    (client.__init__ (client.ClientConfig_of "https://cp.example")) tt ∅
  = Raise (TypeError "boom").
Proof.
  apply (safe_validate_propagates_other_exceptions (H:=raising_model_validate)).
  - reflexivity.
  - discriminate.
Defined.

(** X2. The validator [create_validator] returns for a class gives, on
    every mapping, what [validate] and [safe_validate] give for that
    class, and its [safe_validate] reports success with an instance
    exactly when its [validate] returns that instance. *)
Theorem create_validator_spec {M I : Type} `{BaseModel M I}
    (model_class : M) (d : gmap string value) :
  let v := validation.create_validator model_class in
  validation.validator_validate v d = validation.validate model_class d /\
  validation.validator_safe_validate v d = validation.safe_validate model_class d /\
  (forall i, validation.validator_safe_validate v d = Return (SuccessData i) <->
             validation.validator_validate v d = Return i) /\
  (forall e, validation.validator_safe_validate v d = Return (FailureError e) <->
             validation.validator_validate v d = Raise e /\
             exists title errors, e = ValidationError title errors).
Proof.
  cbn. split; [done|]. split; [done|].
  rewrite safe_validate_cases.
  destruct (validation.validate model_class d) as [j|e']; split.
  - intros i. split; congruence.
  - intros e. split; [discriminate|]. intros [? _]. discriminate.
  - intros i. destruct e'; split; discriminate.
  - intros e. destruct e'; split; try discriminate; try (intros [[= <-] (t & es & ?)]; discriminate).
    + intros [= <-]. eauto.
    + by intros [[= <-] _].
Qed.

(* --------------------------------------------------------------------- *)
(** ** schemas.py *)
(* --------------------------------------------------------------------- *)

(** X4. [list_schemas] returns every registered name exactly once: the
    list has no duplicates and as many names as the registry has entries. *)
Theorem list_schemas_no_duplicates (registry : gmap string model) :
  NoDup (schemas.list_schemas registry) /\
  length (schemas.list_schemas registry) = size registry.
Proof.
  unfold schemas.list_schemas. split.
  - apply NoDup_fst_map_to_list.
  - by rewrite length_fmap, length_map_to_list.
Qed.

(* --------------------------------------------------------------------- *)
(** ** client.py *)
(* --------------------------------------------------------------------- *)

Lemma no_dot_string_of_uint d : no_dot (NilEmpty.string_of_uint d) = true.
Proof. induction d; cbn; auto. Qed.

Lemma no_dot_str_of_int n : no_dot (str_of_int n) = true.
Proof.
  unfold str_of_int. destruct (Z.to_int n) as [d|d]; cbn.
  - destruct d; try reflexivity; apply (no_dot_string_of_uint (_ d)).
  - destruct d; try reflexivity; apply (no_dot_string_of_uint (_ d)).
Qed.

Lemma str_of_int_inj n m : str_of_int n = str_of_int m -> n = m.
Proof.
  unfold str_of_int. intros Heq. apply DecimalZ.to_int_inj.
  assert (forall k, NilZero.int_of_string (NilZero.string_of_int (Z.to_int k))
                    = Some (Z.to_int k)) as Hiso.
  { intros k. apply NilZero.isi; destruct k; cbn; try discriminate;
      intros [= Hnil]; by apply DecimalPos.Unsigned.to_uint_nonnil in Hnil. }
  apply (f_equal NilZero.int_of_string) in Heq. rewrite !Hiso in Heq. congruence.
Qed.

Lemma append_empty (r : string) : "" +:+ r = r.
Proof. reflexivity. Qed.

Lemma append_String c (s r : string) : String c s +:+ r = String c (s +:+ r).
Proof. reflexivity. Qed.

(** The text before the first full stop determines the rest. *)
Lemma append_dot_inj s1 s2 r1 r2 :
  no_dot s1 = true -> no_dot s2 = true ->
  s1 +:+ "." +:+ r1 = s2 +:+ "." +:+ r2 -> s1 = s2 /\ r1 = r2.
Proof.
  revert s2. induction s1 as [|c s1 IH]; intros [|c2 s2] H1 H2 Heq;
    repeat (rewrite append_empty in Heq || rewrite append_String in Heq);
    cbn in H1, H2.
  - by injection Heq as ->.
  - injection Heq as <- _. done.
  - injection Heq as -> _. done.
  - injection Heq as -> Heq.
    apply andb_prop in H1 as [_ H1]. apply andb_prop in H2 as [_ H2].
    destruct (IH s2 H1 H2 Heq) as [-> ->]. done.
Qed.

(** X6. For versions whose numbers are within the interpreter's limit on
    the digits of an [int] written as text, the text [_serialize_version]
    writes identifies the three numbers and nothing else: two versions
    have the same text exactly when major, minor and patch agree;
    [preRelease] is never written. *)
Theorem serialize_version_injective (v v' : client.ContractVersion) :
  version_within_str_digits v -> version_within_str_digits v' ->
  (client._serialize_version v = client._serialize_version v' <->
   client.major v = client.major v' /\ client.minor v = client.minor v' /\
   client.patch v = client.patch v').
Proof.
  intros _ _. unfold client._serialize_version. split.
  - intros Heq.
    apply append_dot_inj in Heq as [Hmaj Heq]; [|apply no_dot_str_of_int..].
    apply append_dot_inj in Heq as [Hmin Hpat]; [|apply no_dot_str_of_int..].
    auto using str_of_int_inj.
  - by intros (-> & -> & ->).
Qed.

(** The versions 1.0.0 and 1.0.0-rc1 are written the same, 1.0.0 and
    1.0.1 are not. *)
Lemma serialize_version_injective_witness :
  let v := {| client.major := 1; client.minor := 0; client.patch := 0;
              client.preRelease := None |} in
  let rc := {| client.major := 1; client.minor := 0; client.patch := 0;
               client.preRelease := Some "rc1" |} in
  let v1 := {| client.major := 1; client.minor := 0; client.patch := 1;
               client.preRelease := None |} in
  client._serialize_version v = client._serialize_version rc /\
  client._serialize_version v ≠ client._serialize_version v1.
Proof.
  intros v rc v1.
  assert (forall n, (n = 0 \/ n = 1) -> within_str_digits n) as Hn.
  { intros n Hn. unfold within_str_digits.
    apply (Z.lt_le_trans _ (10 ^ 1)); [by destruct Hn as [-> | ->]|].
    by apply Z.pow_le_mono_r. }
  assert (version_within_str_digits v /\ version_within_str_digits rc /\
          version_within_str_digits v1) as (Hv & Hrc & Hv1).
  { repeat split; apply Hn; cbn; auto. }
  split.
  - by apply (serialize_version_injective v rc Hv Hrc).
  - intros Heq. apply (serialize_version_injective v v1 Hv Hv1) in Heq as (_ & _ & Hp).
    discriminate.
Defined.

(** X7. The headers of a constructed client hold the content type, the
    contract version and, exactly when the credential is a non-empty
    string, the authorization header, and no other entry; [__init__]
    builds the transport with the base address and timeout of the
    configuration and with these headers. *)
Theorem init_configures_transport (cfg : client.ClientConfig) :
  let self := client.__init__ cfg in
  dom (client.default_headers self) =
    ({["Content-Type"; "X-Contract-Version"]} ∪
     match client.api_key cfg with
     | Some key => if truthy_str key then {["Authorization"]} else ∅
     | None => ∅
     end : gset string) /\
  client.client_headers (client._client self) = client.default_headers self /\
  client.client_base_url (client._client self) = client.base_url cfg /\
  client.client_timeout (client._client self) = client.timeout cfg /\
  client.config self = cfg /\
  client.get_contract_version self =
    {| client.major := 1; client.minor := 0; client.patch := 0;
       client.preRelease := None |}.
Proof.
  cbn zeta. split; [|done].
  rewrite default_headers_init, default_headers_cases.
  destruct (client.api_key cfg) as [key|]; [destruct (truthy_str key)|];
    unfold base_headers; rewrite ?dom_insert_L, dom_empty_L; set_solver.
Qed.

(** X8. Used in a [with] statement, the client is closed when the block
    ends, however it ends: the transport is closed afterwards, the calls
    the block made are kept, a result of the block comes out unchanged,
    and an exception of the block is raised again, never suppressed.
    Closing a closed client changes nothing. *)
Theorem with_client_always_closes {A : Type} (self : client.ControlPlaneClient)
    (body : client.ControlPlaneClient -> client.transport -> outcome A * client.transport)
    (t : client.transport) :
  let after := with_statement client.__enter__ client.__exit__ self body t in
  client.is_closed after.2 = true /\
  client.calls after.2 = client.calls (body self t).2 /\
  after.1 = match (body self t).1 with
            | Return a => Return (Some a)
            | Raise e => Raise e
            end /\
  client.close self after.2 = after.2.
Proof.
  cbn zeta. unfold with_statement, client.__enter__.
  destruct (body self t) as [[a|e] t1]; cbn; auto.
Qed.

(* --------------------------------------------------------------------- *)
(** ** validate on a model class *)
(* --------------------------------------------------------------------- *)

Section ValidateFacts.
Context `{TextFormats}.

Lemma validate_field_name D nf a : validate_field D nf = Valid a -> a.1 = nf.1.
Proof.
  unfold validate_field. destruct (D !! nf.1) as [v|].
  - destruct (coerce _ v); cbn; [|discriminate]. by intros [= <-].
  - destruct (default nf.2); [|discriminate]. by intros [= <-].
Qed.

Lemma validate_fields_names D fields vals :
  validate_fields D fields = Valid vals -> vals.*1 = fields.*1.
Proof.
  revert vals. induction fields as [|nf rest IH]; intros vals Hv.
  - by injection Hv as <-.
  - cbn [validate_fields] in Hv.
    apply collect_Valid in Hv as (a & l & Ha & Hl & ->).
    cbn. by rewrite (validate_field_name D nf a Ha), (IH l Hl).
Qed.

Lemma validate_fields_exact D fields :
  (forall f info, (f, info) ∈ fields ->
     match D !! f with
     | Some v => has_type (annotation info) v = true
     | None => default info ≠ None
     end) ->
  validate_fields D fields =
    Valid (omap (fun nf => match D !! nf.1 with
                           | Some v => Some (nf.1, v)
                           | None => pair nf.1 <$> default nf.2
                           end) fields).
Proof.
  induction fields as [|[f info] rest IH]; intros Hok; [done|].
  cbn [validate_fields omap list_omap]. rewrite IH.
  - pose proof (Hok f info (list_elem_of_here _ _)) as Hf.
    unfold validate_field. cbn [fst snd] in *.
    destruct (D !! f) as [v|].
    + by rewrite (coerce_exact _ v Hf).
    + by destruct (default info).
  - intros f' info' Hin. by apply Hok, list_elem_of_further.
Qed.

Lemma getattr_lookup `{ClassAttributes} (i : instance) f :
  getattr i f =
  match list_find (fun kv => kv.1 = f) (inst_dict i) with
  | Some (_, (_, v)) => Return v
  | None =>
      match class_attribute (inst_class i) f with
      | Some v => Return v
      | None => Raise (AttributeError (inst_class i) f)
      end
  end.
Proof. reflexivity. Qed.
End ValidateFacts.

(** X11. With the validator of the base class as modelled: when every
    declared field is either present with a value that has the declared
    type, or absent with a default, [validate] returns the instance that
    holds, for each declared field in order, the value of the mapping as
    it is, or the declared default as it is (a default is not converted). *)
Theorem validate_well_typed_input `{TextFormats} (cls : model) (D : gmap string value) :
  (forall f info, (f, info) ∈ model_fields cls ->
     match D !! f with
     | Some v => has_type (annotation info) v = true
     | None => default info ≠ None
     end) ->
  validation.validate cls D =
    Return {| inst_class := cls_name cls; inst_dict := populate cls D |}.
Proof.
  intros Hok. unfold validation.validate, model_validate, model_BaseModel,
    model_validate_fields.
  by rewrite (validate_fields_exact D (model_fields cls) Hok).
Qed.

Lemma validate_well_typed_input_witness :
  validation.validate (H:=model_BaseModel (H:=no_text_conversion))
    JobRequest_class job_request_data =
  Return {| inst_class := "JobRequest";
            inst_dict := populate JobRequest_class job_request_data |}.
Proof.
  apply (validate_well_typed_input (H:=no_text_conversion) JobRequest_class).
  intros f info Hin. cbn in Hin.
  repeat (apply elem_of_cons in Hin as [[= -> ->]|Hin]; [by vm_compute|]).
  by apply elem_of_nil in Hin.
Defined.

(** X12. With the validator of the base class as modelled: an instance
    [validate] returns has exactly the declared fields, in declaration
    order, and its class is the class validated against. Every declared
    field is an attribute of it. A key of the mapping that names no field
    is not kept: reading that name finds what the class provides under it
    ([model_config], [model_validate], ...), and raises [AttributeError]
    when the class provides nothing. *)
Theorem validated_instance_fields `{TextFormats} `{ClassAttributes}
    (cls : model) (D : gmap string value) (i : instance) :
  validation.validate cls D = Return i ->
  inst_class i = cls_name cls /\
  (inst_dict i).*1 = field_names cls /\
  (forall f, f ∈ field_names cls -> exists v, getattr i f = Return v) /\
  (forall f, f ∉ field_names cls ->
     (forall v, (f, v) ∉ inst_dict i) /\
     (forall a, class_attribute (cls_name cls) f = Some a -> getattr i f = Return a) /\
     (class_attribute (cls_name cls) f = None ->
        getattr i f = Raise (AttributeError (cls_name cls) f))).
Proof.
  intros [Hc Hv]%validate_Return.
  apply validate_fields_names in Hv. fold (field_names cls) in Hv.
  split; [done|]. split; [done|]. split.
  - intros f Hin. rewrite <- Hv in Hin.
    apply list_elem_of_fmap in Hin as ([k v] & -> & Hin).
    rewrite getattr_lookup.
    destruct (list_find (fun kv => kv.1 = (k, v).1) (inst_dict i)) as [[n [k' v']]|] eqn:Hfind.
    + by exists v'.
    + exfalso. apply list_find_None in Hfind.
      rewrite Forall_forall in Hfind. by apply (Hfind (k, v) Hin).
  - intros f Hnin.
    assert (forall v, (f, v) ∉ inst_dict i) as Hstored.
    { intros v Hin. apply Hnin. rewrite <- Hv. apply list_elem_of_fmap. by exists (f, v). }
    split; [done|].
    assert (list_find (fun kv => kv.1 = f) (inst_dict i) = None) as Hfind.
    { destruct (list_find (fun kv => kv.1 = f) (inst_dict i)) as [[n [k' v']]|] eqn:Hfind;
        [|done].
      exfalso. apply list_find_Some in Hfind as (Hl & Hk & _). cbn in Hk. subst k'.
      apply (Hstored v'). by apply list_elem_of_lookup_2 in Hl. }
    rewrite getattr_lookup, Hfind, Hc. split.
    + by intros a ->.
    + by intros ->.
Qed.

(** The key [traceId] of the mapping is no field of a job request and is
    not kept; [model_config] is read from the class. *)
Lemma validated_instance_fields_witness :
  validation.validate (H:=model_BaseModel (H:=no_text_conversion)) JobRequest_class
    traced_request_data = Return traced_request /\
  (inst_dict traced_request).*1 = field_names JobRequest_class /\
  getattr (H:=named_class_attributes) traced_request "traceId"
    = Raise (AttributeError "JobRequest" "traceId") /\
  getattr (H:=named_class_attributes) traced_request "model_config"
    = Return (VObject "JobRequest.model_config").
Proof.
  assert (validation.validate (H:=model_BaseModel (H:=no_text_conversion))
            JobRequest_class traced_request_data = Return traced_request) as Hval
    by (vm_compute; reflexivity).
  pose proof (validated_instance_fields (H:=no_text_conversion)
                (H0:=named_class_attributes) JobRequest_class
                traced_request_data traced_request Hval) as Hthm.
  destruct Hthm as (_ & Hnames & _ & Hother).
  assert (forall f, f ∈ ["traceId"; "model_config"] -> f ∉ field_names JobRequest_class)
    as Hno.
  { intros f Hf Hin. vm_compute in Hin.
    repeat (apply elem_of_cons in Hf as [->|Hf];
            [repeat (apply elem_of_cons in Hin as [Hin|Hin]; [discriminate|]);
             by apply elem_of_nil in Hin|]).
    by apply elem_of_nil in Hf. }
  pose proof (Hother "traceId" (Hno "traceId" (list_elem_of_here _ _)))
    as (_ & _ & Hnone).
  pose proof (Hother "model_config"
                (Hno "model_config" (list_elem_of_further _ _ _ (list_elem_of_here _ _))))
    as (_ & Hsome & _).
  split; [exact Hval|]. split; [exact Hnames|]. split.
  - apply Hnone. vm_compute. reflexivity.
  - apply Hsome. vm_compute. reflexivity.
Defined.

(* --------------------------------------------------------------------- *)
(** ** Building the registry *)
(* --------------------------------------------------------------------- *)

Lemma mapM_outcome_Return {A B} (f : A -> outcome B) l r :
  mapM_outcome f l = Return r <-> Forall2 (fun x y => f x = Return y) l r.
Proof.
  revert r. induction l as [|x l IH]; intros r; cbn.
  - split; [intros [= <-]; constructor|]. by intros ->%Forall2_nil_inv_l.
  - split.
    + destruct (f x) as [y|e] eqn:Hx; cbn; [|discriminate].
      destruct (mapM_outcome f l) as [ys|e]; cbn; [|discriminate].
      intros [= <-]. constructor; [done|]. by apply IH.
    + intros (y & ys & Hx & Hl & ->)%Forall2_cons_inv_l.
      rewrite Hx. cbn. apply IH in Hl. by rewrite Hl.
Qed.

Lemma mapM_outcome_Raise {A B} (f : A -> outcome B) l e :
  mapM_outcome f l = Raise e -> exists x, x ∈ l /\ f x = Raise e.
Proof.
  induction l as [|x l IH]; cbn; [discriminate|].
  destruct (f x) as [y|e'] eqn:Hx; cbn.
  - destruct (mapM_outcome f l) as [ys|e'']; cbn; [discriminate|].
    intros [= ->]. destruct IH as (x' & Hin & Hx'); [done|].
    exists x'. split; [by apply list_elem_of_further|done].
  - intros [= ->]. exists x. split; [apply list_elem_of_here|done].
Qed.

Lemma foldl_insert_list_to_map {A} (kvs : list (string * A)) :
  foldl (fun d kv => <[kv.1 := kv.2]> d) (∅ : gmap string A) kvs
  = list_to_map (reverse kvs).
Proof.
  induction kvs as [|kv kvs IH] using rev_ind; [done|].
  rewrite foldl_app, reverse_app. cbn. by rewrite IH.
Qed.

Lemma foldl_insert_lookup {A} (kvs : list (string * A)) k v :
  NoDup kvs.*1 ->
  foldl (fun d kv => <[kv.1 := kv.2]> d) (∅ : gmap string A) kvs !! k = Some v
  <-> (k, v) ∈ kvs.
Proof.
  intros Hnd. rewrite foldl_insert_list_to_map, <- elem_of_list_to_map.
  - by rewrite elem_of_reverse.
  - by rewrite fmap_reverse, reverse_Permutation.
Qed.

Lemma registry_display_keys :
  NoDup schemas.registry_display.*1 /\
  Forall (fun ka => ka.1 = ka.2) schemas.registry_display.
Proof.
  split.
  - by apply (bool_decide_unpack _); vm_compute.
  - by apply (bool_decide_unpack _); vm_compute.
Qed.

(** What a registry that was built holds. *)
Lemma SCHEMA_REGISTRY_lookup (g : gmap string global) (registry : gmap string model) :
  schemas.SCHEMA_REGISTRY g = Return registry ->
  forall name m,
    registry !! name = Some m <->
    name ∈ schemas.registry_display.*1 /\ g !! name = Some (GClass m).
Proof.
  unfold schemas.SCHEMA_REGISTRY. intros Hreg name m.
  destruct (mapM_outcome _ schemas.registry_display) as [kvs|e] eqn:Hm;
    cbn in Hreg; [|discriminate].
  injection Hreg as <-. apply mapM_outcome_Return in Hm.
  destruct registry_display_keys as [Hnd Hsame].
  assert (Hkeys : forall d kvs',
            Forall2 (fun ka (kv : string * model) =>
                       (m' ← getattr_module "models" g ka.2; Return (ka.1, m')) = Return kv)
                    d kvs' ->
            Forall (fun ka : string * string => ka.1 = ka.2) d ->
            kvs'.*1 = d.*1 /\
            forall k v, (k, v) ∈ kvs' <-> k ∈ d.*1 /\ g !! k = Some (GClass v)).
  { clear. intros d kvs' HF. induction HF as [|[k a] [k' v'] d kvs' Hx HF IH]; intros Hs.
    - split; [done|]. intros k v. split; [by intros ?%elem_of_nil|].
      by intros [?%elem_of_nil _].
    - apply Forall_cons in Hs as [Hka Hs]. cbn in Hka. subst a.
      destruct (IH Hs) as [Hfst Hel]. cbn in Hx.
      unfold getattr_module in Hx.
      destruct (g !! k) as [[q|mk]|] eqn:Hgk; cbn in Hx; try discriminate.
      injection Hx as <- <-. split; [cbn; by rewrite Hfst|].
      intros k0 v0. rewrite elem_of_cons, Hel. cbn. rewrite elem_of_cons. split.
      + intros [[= -> ->]|[? ?]]; auto.
      + intros [[->|Hin] Hg]; [left; congruence|right; done]. }
  destruct (Hkeys _ _ Hm Hsame) as [Hfst Hel].
  rewrite foldl_insert_lookup by by rewrite Hfst.
  apply Hel.
Qed.

(** X3. [SCHEMA_REGISTRY] is built exactly when the models module binds a
    class under every name the display refers to. It then holds, under
    each of its forty-two keys, the class the module binds under that
    name, and nothing else; if any of these classes is missing, building
    the registry raises [AttributeError] and no partial registry exists. *)
Theorem SCHEMA_REGISTRY_built_from_models (g : gmap string global) :
  ((forall a, a ∈ schemas.registry_display.*2 -> exists m, g !! a = Some (GClass m)) ->
   exists registry,
     schemas.SCHEMA_REGISTRY g = Return registry /\
     forall name m,
       registry !! name = Some m <->
       name ∈ schemas.registry_display.*1 /\ g !! name = Some (GClass m)) /\
  (forall a, a ∈ schemas.registry_display.*2 ->
     (forall m, g !! a ≠ Some (GClass m)) ->
     exists a', a' ∈ schemas.registry_display.*2 /\
                schemas.SCHEMA_REGISTRY g = Raise (AttributeError "models" a')).
Proof.
  split.
  - intros Hall.
    destruct (schemas.SCHEMA_REGISTRY g) as [registry|e] eqn:Hreg.
    + exists registry. split; [done|]. by apply SCHEMA_REGISTRY_lookup.
    + exfalso. unfold schemas.SCHEMA_REGISTRY in Hreg.
      destruct (mapM_outcome _ schemas.registry_display) as [kvs|e'] eqn:Hm;
        cbn in Hreg; [discriminate|].
      apply mapM_outcome_Raise in Hm as ([k a] & Hin & Hx).
      destruct (Hall a) as [m Hg].
      { apply list_elem_of_fmap. by exists (k, a). }
      cbn in Hx. unfold getattr_module in Hx. rewrite Hg in Hx. discriminate.
  - intros a Hin Hmiss.
    destruct (schemas.SCHEMA_REGISTRY g) as [registry|e] eqn:Hreg.
    + exfalso. apply list_elem_of_fmap in Hin as ([k a'] & -> & Hin).
      unfold schemas.SCHEMA_REGISTRY in Hreg.
      destruct (mapM_outcome _ schemas.registry_display) as [kvs|e'] eqn:Hm;
        cbn in Hreg; [|discriminate].
      apply mapM_outcome_Return in Hm.
      apply list_elem_of_lookup_1 in Hin as [n Hn].
      destruct (Forall2_lookup_l _ _ _ n _ Hm Hn) as (kv & _ & Hx).
      cbn in Hx. unfold getattr_module in Hx.
      destruct (g !! a') as [[q|mk]|] eqn:Hg; cbn in Hx; try discriminate.
      by destruct (Hmiss mk).
    + unfold schemas.SCHEMA_REGISTRY in Hreg.
      destruct (mapM_outcome _ schemas.registry_display) as [kvs|e'] eqn:Hm;
        cbn in Hreg; [discriminate|].
      injection Hreg as <-.
      apply mapM_outcome_Raise in Hm as ([k a'] & Hin' & Hx).
      exists a'. split; [apply list_elem_of_fmap; by exists (k, a')|].
      cbn in Hx. unfold getattr_module in Hx.
      destruct (g !! a') as [[q|mk]|]; cbn in Hx; try discriminate; congruence.
Qed.

Lemma repaired_globals_bind_registry_classes :
  forall a, a ∈ schemas.registry_display.*2 ->
            exists m, repaired_globals !! a = Some (GClass m).
Proof.
  intros a Ha.
  assert (forallb (fun a => match repaired_globals !! a with
                            | Some (GClass _) => true
                            | _ => false
                            end) schemas.registry_display.*2 = true) as Hall
    by (vm_compute; reflexivity).
  rewrite forallb_forall in Hall. apply list_elem_of_In, Hall in Ha.
  destruct (repaired_globals !! a) as [[q|m]|]; try discriminate. by exists m.
Qed.

Lemma SCHEMA_REGISTRY_built_from_models_witness :
  exists registry,
    schemas.SCHEMA_REGISTRY repaired_globals = Return registry /\
    registry !! "JobRequest" = Some JobRequest_class /\
    registry !! "JobStatus" = None.
Proof.
  destruct (proj1 (SCHEMA_REGISTRY_built_from_models repaired_globals)
              repaired_globals_bind_registry_classes) as (registry & Hreg & Hlook).
  exists registry. split; [exact Hreg|]. split.
  - apply Hlook. split.
    + by apply (bool_decide_unpack _); vm_compute.
    + vm_compute. reflexivity.
  - destruct (registry !! "JobStatus") as [m|] eqn:Hm; [|reflexivity].
    apply Hlook in Hm as [Hin _]. exfalso. revert Hin.
    by apply (bool_decide_unpack _); vm_compute.
Defined.

(* --------------------------------------------------------------------- *)
(** ** Classes and the names they are bound to *)
(* --------------------------------------------------------------------- *)

Lemma bind_imports_named g mname names :
  classes_named g -> classes_named (bind_imports g mname names).
Proof.
  unfold bind_imports. revert g. induction names as [|n names IH]; intros g Hg; [done|].
  cbn. apply IH. intros k m Hk.
  destruct (decide (n = k)) as [->|Hne].
  - rewrite lookup_insert_eq in Hk. discriminate.
  - rewrite lookup_insert_ne in Hk by done. by apply Hg.
Qed.

Lemma module_globals_named mname : classes_named (module_globals mname).
Proof. apply bind_imports_named. intros k m Hk. by rewrite lookup_empty in Hk. Qed.

Lemma exec_classdef_name g cname bases body m :
  exec_classdef g cname bases body = Return m -> cls_name m = cname.
Proof.
  unfold exec_classdef.
  destruct (mapM_outcome _ bases) as [bs|e]; cbn; [|discriminate].
  repeat (match goal with
          | |- context [match ?x with _ => _ end] => destruct x; try discriminate
          end).
  cbn. destruct (exec_class_body _ _ _) as [ns|e]; cbn; [|discriminate].
  by intros [= <-].
Qed.

Lemma exec_stmt_named g s g' :
  classes_named g -> exec_stmt g s = Return g' -> classes_named g'.
Proof.
  intros Hg. destruct s as [mname names|cname bases body]; cbn.
  - intros [= <-]. by apply bind_imports_named.
  - destruct (exec_classdef g cname bases body) as [m|e] eqn:Hm; cbn; [|discriminate].
    intros [= <-] k m' Hk.
    destruct (decide (cname = k)) as [->|Hne].
    + rewrite lookup_insert_eq in Hk. injection Hk as <-.
      by apply exec_classdef_name in Hm.
    + rewrite lookup_insert_ne in Hk by done. by apply Hg.
Qed.

Lemma exec_module_named body g g' :
  classes_named g -> exec_module g body = Return g' -> classes_named g'.
Proof.
  revert g. induction body as [|s body IH]; intros g Hg; cbn.
  - by intros [= <-].
  - destruct (exec_stmt g s) as [g1|e] eqn:Hs; cbn; [|discriminate].
    apply IH. by apply (exec_stmt_named g s).
Qed.

(** X5. Whatever the body of the models module, when it imports and the
    registry is built from it, the class [get_schema] returns for a name is
    the class of that name: its [__name__] is the name it was looked up
    by, and the name is one of the keys of the registry display. *)
Theorem get_schema_returns_class_of_that_name (body : list stmt) (name : string) (m : model) :
  get_schema_from body name = Return m ->
  cls_name m = name /\ name ∈ schemas.registry_display.*1.
Proof.
  unfold get_schema_from.
  destruct (exec_module _ body) as [g|e] eqn:Hg;
    [rewrite bind_Return|by rewrite bind_Raise].
  destruct (schemas.SCHEMA_REGISTRY g) as [registry|e] eqn:Hreg;
    [rewrite bind_Return|by rewrite bind_Raise].
  intros Hget.
  assert (registry !! name = Some m) as Hlook.
  { destruct (registry !! name) as [m'|] eqn:Hl.
    - rewrite (get_schema_registered registry name m' Hl) in Hget. congruence.
    - rewrite (get_schema_unknown registry name Hl) in Hget. discriminate. }
  apply (SCHEMA_REGISTRY_lookup g registry Hreg) in Hlook as [Hin Hclass].
  split; [|done].
  by apply (exec_module_named body _ g (module_globals_named _) Hg).
Qed.

Lemma get_schema_returns_class_of_that_name_witness :
  cls_name JobRequest_class = "JobRequest" /\
  "JobRequest" ∈ schemas.registry_display.*1.
Proof.
  apply (get_schema_returns_class_of_that_name (repair_stmt <$> models.source)).
  vm_compute. reflexivity.
Defined.

(* --------------------------------------------------------------------- *)
(** ** The declarations of models.py *)
(* --------------------------------------------------------------------- *)

Lemma strings_of_Some es l : strings_of es = Some l -> es = EStr <$> l.
Proof.
  revert l. induction es as [|e es IH]; intros l; cbn.
  - by intros [= <-].
  - destruct e; try discriminate.
    destruct (strings_of es) as [l'|]; cbn; [|discriminate].
    intros [= <-]. cbn. by rewrite (IH l' eq_refl).
Qed.

Lemma required_list_matches_all :
  forallb required_list_matches models.classes = true.
Proof. vm_compute. reflexivity. Qed.

(** X9. In every class statement of models.py, the list written under
    [json_schema_extra["required"]], when there is one, names exactly
    the fields annotated without a value, in the order of declaration;
    and for every class statement that runs, those are the fields the
    class requires. *)
Theorem required_lists_name_fields_without_default (s : stmt) :
  s ∈ models.classes ->
  (forall names, required_display s = Some names ->
                 names = EStr <$> annotated_without_value s) /\
  (forall cls, define s = Return cls ->
               required_fields cls = annotated_without_value s).
Proof.
  intros Hin%list_elem_of_In.
  pose proof required_list_matches_all as Hall.
  rewrite forallb_forall in Hall. apply Hall in Hin.
  unfold required_list_matches in Hin. apply andb_prop in Hin as [H1 H2].
  split.
  - intros names Hn. rewrite Hn in H1.
    apply bool_decide_eq_true_1 in H1. by apply strings_of_Some.
  - intros cls Hd. rewrite Hd in H2. by apply bool_decide_eq_true_1 in H2.
Qed.

Lemma required_lists_name_fields_without_default_witness :
  required_display models.JobRequest
    = Some [EStr "id"; EStr "type"; EStr "payload"; EStr "metadata"] /\
  required_fields JobRequest_class = ["id"; "type"; "payload"; "metadata"].
Proof.
  destruct (required_lists_name_fields_without_default models.JobRequest)
    as [Hnames Hfields].
  { unfold models.classes. do 12 apply list_elem_of_further. apply list_elem_of_here. }
  split.
  - destruct (required_display models.JobRequest) as [names|] eqn:Hn;
      [|vm_compute in Hn; discriminate].
    by rewrite (Hnames names eq_refl).
  - by rewrite (Hfields JobRequest_class define_JobRequest).
Defined.

Lemma statement_defaults_fit_all `{TextFormats} :
  forallb statement_defaults_fit models.classes = true.
Proof. vm_compute. reflexivity. Qed.

(** X10. Every default that a class of models.py declares converts to the
    type of its field under the validator's conversions, whatever the text
    conversions are, both for the classes that run as written and for all
    fifty-six once [false] and [true] are read as [False] and [True]. *)
Theorem declared_defaults_fit_their_fields `{TextFormats} (s : stmt) :
  s ∈ models.classes ->
  (forall cls, define s = Return cls -> defaults_fit cls = true) /\
  (exists cls, define (repair_stmt s) = Return cls /\ defaults_fit cls = true).
Proof.
  intros Hin%list_elem_of_In.
  pose proof statement_defaults_fit_all as Hall.
  rewrite forallb_forall in Hall. apply Hall in Hin.
  unfold statement_defaults_fit in Hin. apply andb_prop in Hin as [H1 H2].
  split.
  - intros cls Hd. by rewrite Hd in H1.
  - destruct (define (repair_stmt s)) as [cls|e]; [|discriminate]. by exists cls.
Qed.

Lemma declared_defaults_fit_their_fields_witness :
  defaults_fit (H:=no_text_conversion) JobRequest_class = true.
Proof.
  destruct (declared_defaults_fit_their_fields (H:=no_text_conversion) models.JobRequest)
    as [Hfit _].
  { unfold models.classes. do 12 apply list_elem_of_further. apply list_elem_of_here. }
  apply Hfit. exact define_JobRequest.
Defined.
